(** * githubactionseventreceiver: trace_receiver.go

    A shallow embedding of the GitHub Actions event receiver
    (receiver/githubactionseventreceiver/trace_receiver.go) and the
    properties of its identifier derivation, signature verification, event
    classification and span assembly.

    Conventions of the embedding:
    - a Go [string] is a [String.string] (a sequence of 8-bit characters);
    - a Go [[]byte] and the fixed arrays [pcommon.TraceID] ([16]byte) and
      [pcommon.SpanID] ([8]byte) are [list Z], every element in [0, 256);
    - [uint32] arithmetic is on [Z] with the wrap-around written out;
    - [int64] and [int] values are [Z];
    - a Go [map] is a stdpp [gmap]; [pcommon.Map] is an association list with
      insert-or-update, because it keeps insertion order;
    - the pdata handles ([ptrace.ScopeSpans], [ptrace.Span], ...) alias parts
      of one trace document; the embedding threads the document explicitly;
    - a run-time panic is an outcome of its own ([Panic]);
    - logging does not influence control flow and is left out. *)

From Stdlib Require Import ZArith List String Ascii Lia Bool DecimalString.
From stdpp Require Import base list strings gmap.

Import ListNotations.
Local Open Scope Z_scope.

(** ** Bytes and strings *)

(** [[]byte(s)] *)
Definition bytes_of_string (s : string) : list Z :=
  map (fun c => Z.of_N (N_of_ascii c)) (list_ascii_of_string s).

(** [fmt.Sprintf("%d", z)] *)
Definition fmt_d (z : Z) : string := NilZero.string_of_int (Z.to_int z).

(** [s[lo:hi]] for indices known to be in range. *)
Definition str_slice (lo hi : nat) (s : string) : string :=
  String.substring lo (hi - lo) s.

(** ** 32-bit words *)

Module u32.
Definition modulus : Z := 2 ^ 32.
Definition wrap (x : Z) : Z := x mod modulus.
Definition add (x y : Z) : Z := wrap (x + y).
Definition not (x : Z) : Z := Z.lxor x 4294967295.
Definition shl (x n : Z) : Z := wrap (Z.shiftl x n).
(** [bits.RotateLeft32(x, -n)] *)
Definition rotr (x n : Z) : Z := Z.lor (Z.shiftr x n) (shl x (32 - n)).
(** [bits.RotateLeft32(x, n)] *)
Definition rotl (x n : Z) : Z := Z.lor (shl x n) (Z.shiftr x (32 - n)).
(** Big-endian bytes of a word, [binary.BigEndian.PutUint32]. *)
Definition to_bytes (x : Z) : list Z :=
  [Z.land (Z.shiftr x 24) 255; Z.land (Z.shiftr x 16) 255;
   Z.land (Z.shiftr x 8) 255; Z.land x 255].
(** [uint32(p[0])<<24 | uint32(p[1])<<16 | uint32(p[2])<<8 | uint32(p[3])] *)
Definition of_bytes (b0 b1 b2 b3 : Z) : Z :=
  Z.lor (Z.lor (Z.lor (Z.shiftl b0 24) (Z.shiftl b1 16)) (Z.shiftl b2 8)) b3.
Fixpoint words (p : list Z) : list Z :=
  match p with
  | b0 :: b1 :: b2 :: b3 :: q => of_bytes b0 b1 b2 b3 :: words q
  | _ => []
  end.
End u32.

(** [binary.BigEndian.PutUint64] of the message length in bits. *)
Definition be64 (x : Z) : list Z :=
  u32.to_bytes (Z.shiftr (x mod 2 ^ 64) 32) ++ u32.to_bytes (Z.land x 4294967295).

(** Merkle-Damgard padding shared by SHA-1 and SHA-256 ([checkSum]): one
    0x80 byte, zeros up to 56 mod 64, then the bit length. *)
Definition md_pad (len : Z) : list Z :=
  let r := len mod 64 in
  let n := if r <? 56 then 56 - r else 64 + 56 - r in
  128 :: repeat 0 (Z.to_nat (n - 1)) ++ be64 (Z.shiftl len 3).

(** The buffered [Write] of both digests: bytes are collected in [buf] and
    every full 64-byte chunk is handed to the block function. *)
Section MDWrite.
Context {D : Type} (block : D -> list Z -> D).

Fixpoint md_write (d : D) (buf : list Z) (p : list Z) : D * list Z :=
  match p with
  | [] => (d, buf)
  | b :: q =>
      let buf' := buf ++ [b] in
      if (length buf' =? 64)%nat then md_write (block d buf') [] q
      else md_write d buf' q
  end.

Definition md_sum (init : D) (data : list Z) : D :=
  fst (md_write init [] (data ++ md_pad (Z.of_nat (length data)))).
End MDWrite.

(** ** crypto/sha256 *)

Module sha256.
Record digest := Digest { h0 : Z; h1 : Z; h2 : Z; h3 : Z; h4 : Z; h5 : Z; h6 : Z; h7 : Z }.

Definition init : digest :=
  Digest 0x6a09e667 0xbb67ae85 0x3c6ef372 0xa54ff53a
         0x510e527f 0x9b05688c 0x1f83d9ab 0x5be0cd19.

Definition _K : list Z :=
  [0x428a2f98; 0x71374491; 0xb5c0fbcf; 0xe9b5dba5] ++
  [0x3956c25b; 0x59f111f1; 0x923f82a4; 0xab1c5ed5] ++
  [0xd807aa98; 0x12835b01; 0x243185be; 0x550c7dc3] ++
  [0x72be5d74; 0x80deb1fe; 0x9bdc06a7; 0xc19bf174] ++
  [0xe49b69c1; 0xefbe4786; 0x0fc19dc6; 0x240ca1cc] ++
  [0x2de92c6f; 0x4a7484aa; 0x5cb0a9dc; 0x76f988da] ++
  [0x983e5152; 0xa831c66d; 0xb00327c8; 0xbf597fc7] ++
  [0xc6e00bf3; 0xd5a79147; 0x06ca6351; 0x14292967] ++
  [0x27b70a85; 0x2e1b2138; 0x4d2c6dfc; 0x53380d13] ++
  [0x650a7354; 0x766a0abb; 0x81c2c92e; 0x92722c85] ++
  [0xa2bfe8a1; 0xa81a664b; 0xc24b8b70; 0xc76c51a3] ++
  [0xd192e819; 0xd6990624; 0xf40e3585; 0x106aa070] ++
  [0x19a4c116; 0x1e376c08; 0x2748774c; 0x34b0bcb5] ++
  [0x391c0cb3; 0x4ed8aa4a; 0x5b9cca4f; 0x682e6ff3] ++
  [0x748f82ee; 0x78a5636f; 0x84c87814; 0x8cc70208] ++
  [0x90befffa; 0xa4506ceb; 0xbef9a3f7; 0xc67178f2].

(** [w[i] = t1 + w[i-7] + t2 + w[i-16]], for [i] the length of [w]. *)
Definition next_w (w : list Z) : Z :=
  let i := length w in
  let v1 := nth (i - 2) w 0 in
  let t1 := Z.lxor (Z.lxor (u32.rotr v1 17) (u32.rotr v1 19)) (Z.shiftr v1 10) in
  let v2 := nth (i - 15) w 0 in
  let t2 := Z.lxor (Z.lxor (u32.rotr v2 7) (u32.rotr v2 18)) (Z.shiftr v2 3) in
  u32.add (u32.add (u32.add t1 (nth (i - 7) w 0)) t2) (nth (i - 16) w 0).

Fixpoint schedule (n : nat) (w : list Z) : list Z :=
  match n with
  | O => w
  | S n' => schedule n' (w ++ [next_w w])
  end.

Definition round (s : digest) (kw : Z * Z) : digest :=
  let '(Digest a b c d e f g h) := s in
  let t1 := u32.add (u32.add (u32.add (u32.add h
              (Z.lxor (Z.lxor (u32.rotr e 6) (u32.rotr e 11)) (u32.rotr e 25)))
              (Z.lxor (Z.land e f) (Z.land (u32.not e) g))) (fst kw)) (snd kw) in
  let t2 := u32.add
              (Z.lxor (Z.lxor (u32.rotr a 2) (u32.rotr a 13)) (u32.rotr a 22))
              (Z.lxor (Z.lxor (Z.land a b) (Z.land a c)) (Z.land b c)) in
  Digest (u32.add t1 t2) a b c (u32.add d t1) e f g.

(** [blockGeneric] on one 64-byte chunk. *)
Definition block (dig : digest) (p : list Z) : digest :=
  let w := schedule 48 (u32.words p) in
  let '(Digest a b c d e f g h) := fold_left round (combine _K w) dig in
  Digest (u32.add (h0 dig) a) (u32.add (h1 dig) b) (u32.add (h2 dig) c)
         (u32.add (h3 dig) d) (u32.add (h4 dig) e) (u32.add (h5 dig) f)
         (u32.add (h6 dig) g) (u32.add (h7 dig) h).

Definition digest_bytes (d : digest) : list Z :=
  u32.to_bytes (h0 d) ++ u32.to_bytes (h1 d) ++ u32.to_bytes (h2 d) ++
  u32.to_bytes (h3 d) ++ u32.to_bytes (h4 d) ++ u32.to_bytes (h5 d) ++
  u32.to_bytes (h6 d) ++ u32.to_bytes (h7 d).

(** [sha256.Sum256(data)] *)
Definition Sum256 (data : list Z) : list Z :=
  digest_bytes (md_sum block init data).
End sha256.

(** ** crypto/sha1 *)

Module sha1.
Record digest := Digest { h0 : Z; h1 : Z; h2 : Z; h3 : Z; h4 : Z }.

Definition init : digest :=
  Digest 0x67452301 0xEFCDAB89 0x98BADCFE 0x10325476 0xC3D2E1F0.

Definition _K0 : Z := 0x5A827999.
Definition _K1 : Z := 0x6ED9EBA1.
Definition _K2 : Z := 0x8F1BBCDC.
Definition _K3 : Z := 0xCA62C1D6.

(** [w[i] = RotateLeft32(w[i-3] ^ w[i-8] ^ w[i-14] ^ w[i-16], 1)]; the Go
    code keeps the last sixteen words in a circular buffer. *)
Definition next_w (w : list Z) : Z :=
  let i := length w in
  u32.rotl (Z.lxor (Z.lxor (Z.lxor (nth (i - 3) w 0) (nth (i - 8) w 0))
                           (nth (i - 14) w 0)) (nth (i - 16) w 0)) 1.

Fixpoint schedule (n : nat) (w : list Z) : list Z :=
  match n with
  | O => w
  | S n' => schedule n' (w ++ [next_w w])
  end.

(** The round function and constant of round [i]. *)
Definition f_k (i : nat) (b c d : Z) : Z * Z :=
  if (i <? 20)%nat then (Z.lor (Z.land b c) (Z.land (u32.not b) d), _K0)
  else if (i <? 40)%nat then (Z.lxor (Z.lxor b c) d, _K1)
  else if (i <? 60)%nat then (Z.lor (Z.land (Z.lor b c) d) (Z.land b c), _K2)
  else (Z.lxor (Z.lxor b c) d, _K3).

Definition round (s : digest) (iw : nat * Z) : digest :=
  let '(Digest a b c d e) := s in
  let '(f, k) := f_k (fst iw) b c d in
  let t := u32.add (u32.add (u32.add (u32.add (u32.rotl a 5) f) e) (snd iw)) k in
  Digest t a (u32.rotl b 30) c d.

(** [blockGeneric] on one 64-byte chunk. *)
Definition block (dig : digest) (p : list Z) : digest :=
  let w := schedule 64 (u32.words p) in
  let '(Digest a b c d e) := fold_left round (combine (seq 0 80) w) dig in
  Digest (u32.add (h0 dig) a) (u32.add (h1 dig) b) (u32.add (h2 dig) c)
         (u32.add (h3 dig) d) (u32.add (h4 dig) e).

Definition digest_bytes (d : digest) : list Z :=
  u32.to_bytes (h0 d) ++ u32.to_bytes (h1 d) ++ u32.to_bytes (h2 d) ++
  u32.to_bytes (h3 d) ++ u32.to_bytes (h4 d).

(** [sha1.Sum(data)], the value of [h.Write(data); h.Sum(nil)] for [h = sha1.New()]. *)
Definition Sum (data : list Z) : list Z :=
  digest_bytes (md_sum block init data).
End sha1.

(** ** crypto/hmac *)

Module hmac.
Section WithHash.
(** The hash constructor passed to [hmac.New]; both hashes used here have
    a block size of 64 bytes. *)
Variable h : list Z -> list Z.

Definition blocksize : nat := 64.

(** [hmac.New(h, key)]: the key, hashed when longer than a block, padded
    with zeros to the block size. *)
Definition block_key (key : list Z) : list Z :=
  let key := if (blocksize <? length key)%nat then h key else key in
  key ++ repeat 0 (blocksize - length key).

(** [mac := hmac.New(h, key); mac.Write(body); mac.Sum(nil)] *)
Definition Sum (key body : list Z) : list Z :=
  let k := block_key key in
  let ipad := map (fun b => Z.lxor b 0x36) k in
  let opad := map (fun b => Z.lxor b 0x5c) k in
  h (opad ++ h (ipad ++ body)).
End WithHash.

(** [hmac.Equal(mac1, mac2)]: [subtle.ConstantTimeCompare(mac1, mac2) == 1],
    true exactly when both have the same length and the same bytes. *)
Fixpoint Equal (mac1 mac2 : list Z) : bool :=
  match mac1, mac2 with
  | [], [] => true
  | x :: m1, y :: m2 => (x =? y) && Equal m1 m2
  | _, _ => false
  end.
End hmac.

(** ** Go errors and panics *)

(** The error values that occur: [errors.New]/[fmt.Errorf] with their message,
    the two errors of [encoding/hex], and errors of collaborators
    ([encoding/json], the next consumer) by their message. *)
Inductive error : Type :=
  | errorString (msg : string)
  | hex_ErrLength
  | hex_InvalidByteError (b : Z)
  | json_Error (msg : string)
  | consumer_Error (msg : string).

(** The outcome of a Go call that may panic. *)
Inductive go (A : Type) : Type :=
  | Ret (a : A)
  | Panic (msg : string).
Arguments Ret {A} a.
Arguments Panic {A} msg.

(** Sequencing: a panic ends the call. *)
#[export] Instance go_bind : MBind go := fun A B k m =>
  match m with
  | Ret a => k a
  | Panic msg => Panic msg
  end.

(** [s[n:]]: panics when [n] exceeds the length of [s]. *)
Definition str_from (n : nat) (s : string) : go string :=
  if (n <=? String.length s)%nat
  then Ret (String.substring n (String.length s - n) s)
  else Panic "slice bounds out of range".

(** ** encoding/hex *)

Module hex.
Definition hextable : string := "0123456789abcdef".

Definition hexdigit (x : Z) : ascii :=
  match String.get (Z.to_nat x) hextable with
  | Some c => c
  | None => "0"%char
  end.

(** [hex.EncodeToString(src)] *)
Fixpoint EncodeToString (src : list Z) : string :=
  match src with
  | [] => EmptyString
  | v :: rest =>
      String (hexdigit (Z.shiftr v 4))
        (String (hexdigit (Z.land v 15)) (EncodeToString rest))
  end.

(** [reverseHexTable]: the value of a hexadecimal digit, [None] where the
    table holds 0xff. *)
Definition fromHexChar (c : ascii) : option Z :=
  let n := Z.of_N (N_of_ascii c) in
  if (48 <=? n) && (n <=? 57) then Some (n - 48)
  else if (97 <=? n) && (n <=? 102) then Some (n - 97 + 10)
  else if (65 <=? n) && (n <=? 70) then Some (n - 65 + 10)
  else None.

(** The loop of [hex.Decode(dst, src)]: the bytes written to the front of
    [dst] and the error, if any. *)
Fixpoint decode_loop (src : string) : list Z * option error :=
  match src with
  | EmptyString => ([], None)
  | String p EmptyString =>
      match fromHexChar p with
      | None => ([], Some (hex_InvalidByteError (Z.of_N (N_of_ascii p))))
      | Some _ => ([], Some hex_ErrLength)
      end
  | String p (String q rest) =>
      match fromHexChar p, fromHexChar q with
      | None, _ => ([], Some (hex_InvalidByteError (Z.of_N (N_of_ascii p))))
      | Some _, None => ([], Some (hex_InvalidByteError (Z.of_N (N_of_ascii q))))
      | Some a, Some b =>
          let '(out, err) := decode_loop rest in
          (Z.lor (Z.shiftl a 4) b :: out, err)
      end
  end.

(** [hex.Decode(dst, src)] for a [dst] that is long enough: the updated
    [dst] and the error. *)
Definition Decode (dst : list Z) (src : string) : list Z * option error :=
  let '(out, err) := decode_loop src in
  (out ++ skipn (length out) dst, err).
End hex.

(** ** pdata: traces, spans and attributes *)

(** [time.Time], by the value of its [UnixNano()]. *)
Record Time := { UnixNano : Z }.

(** [pcommon.NewTimestampFromTime(t)]: [Timestamp(uint64(t.UnixNano()))]. *)
Definition NewTimestampFromTime (t : Time) : Z := UnixNano t mod 2 ^ 64.

Inductive StatusCode := StatusCodeUnset | StatusCodeOk | StatusCodeError.

Inductive SpanKind :=
  | SpanKindUnspecified | SpanKindInternal | SpanKindServer
  | SpanKindClient | SpanKindProducer | SpanKindConsumer.

(** The zero values [pcommon.TraceID{}] and [pcommon.SpanID{}]. *)
Definition TraceID_zero : list Z := repeat 0 16.
Definition SpanID_zero : list Z := repeat 0 8.

Module Span.
Record t := mk {
  TraceID : list Z;
  SpanID : list Z;
  ParentSpanID : list Z;
  Name : string;
  Kind : SpanKind;
  StartTimestamp : Z;
  EndTimestamp : Z;
  Code : StatusCode;
  Message : string
}.

(** The span that [AppendEmpty] adds. *)
Definition empty : t :=
  mk TraceID_zero SpanID_zero SpanID_zero "" SpanKindUnspecified 0 0 StatusCodeUnset "".

Definition SetTraceID (v : list Z) (s : t) : t :=
  mk v (SpanID s) (ParentSpanID s) (Name s) (Kind s) (StartTimestamp s) (EndTimestamp s) (Code s) (Message s).
Definition SetSpanID (v : list Z) (s : t) : t :=
  mk (TraceID s) v (ParentSpanID s) (Name s) (Kind s) (StartTimestamp s) (EndTimestamp s) (Code s) (Message s).
Definition SetParentSpanID (v : list Z) (s : t) : t :=
  mk (TraceID s) (SpanID s) v (Name s) (Kind s) (StartTimestamp s) (EndTimestamp s) (Code s) (Message s).
Definition SetName (v : string) (s : t) : t :=
  mk (TraceID s) (SpanID s) (ParentSpanID s) v (Kind s) (StartTimestamp s) (EndTimestamp s) (Code s) (Message s).
Definition SetKind (v : SpanKind) (s : t) : t :=
  mk (TraceID s) (SpanID s) (ParentSpanID s) (Name s) v (StartTimestamp s) (EndTimestamp s) (Code s) (Message s).
Definition SetStartTimestamp (v : Z) (s : t) : t :=
  mk (TraceID s) (SpanID s) (ParentSpanID s) (Name s) (Kind s) v (EndTimestamp s) (Code s) (Message s).
Definition SetEndTimestamp (v : Z) (s : t) : t :=
  mk (TraceID s) (SpanID s) (ParentSpanID s) (Name s) (Kind s) (StartTimestamp s) v (Code s) (Message s).
(** [span.Status().SetCode(c)] *)
Definition SetCode (v : StatusCode) (s : t) : t :=
  mk (TraceID s) (SpanID s) (ParentSpanID s) (Name s) (Kind s) (StartTimestamp s) (EndTimestamp s) v (Message s).
(** [span.Status().SetMessage(m)] *)
Definition SetMessage (v : string) (s : t) : t :=
  mk (TraceID s) (SpanID s) (ParentSpanID s) (Name s) (Kind s) (StartTimestamp s) (EndTimestamp s) (Code s) v.
End Span.

(** [pcommon.Value], as far as the receiver builds it. *)
Inductive Value := ValueStr (s : string) | ValueInt (i : Z).

(** [pcommon.Map]: key-value pairs in insertion order, keys unique. *)
Definition Map := list (string * Value).

(** [PutStr]/[PutInt]: update the entry of [k] when there is one, append
    otherwise. *)
Fixpoint Put (k : string) (v : Value) (m : Map) : Map :=
  match m with
  | [] => [(k, v)]
  | (k', v') :: rest =>
      if String.eqb k' k then (k', v) :: rest else (k', v') :: Put k v rest
  end.

Definition PutStr (k v : string) (m : Map) : Map := Put k (ValueStr v) m.
Definition PutInt (k : string) (v : Z) (m : Map) : Map := Put k (ValueInt v) m.

(** [ptrace.ScopeSpans], by its span slice. *)
Record ScopeSpans := { Spans : list Span.t }.

(** [ptrace.ResourceSpans]: the resource, by its attributes, and the scope
    spans. *)
Record ResourceSpans := { Resource : Map; ScopeSpansSlice : list ScopeSpans }.

(** [ptrace.Traces]: the zero value [ptrace.Traces{}], or a document with its
    resource spans. *)
Inductive Traces :=
  | Traces_zero
  | TracesOf (rs : list ResourceSpans).

Definition ResourceSpansSlice (td : Traces) : list ResourceSpans :=
  match td with
  | Traces_zero => []
  | TracesOf rs => rs
  end.

(** All spans of a document, in order. *)
Definition all_spans (td : Traces) : list Span.t :=
  flat_map (fun rs => flat_map Spans (ScopeSpansSlice rs)) (ResourceSpansSlice td).

(** [td.SpanCount()] *)
Definition SpanCount (td : Traces) : nat := length (all_spans td).

(** ** The event model *)

Module Owner.
Record t := mk { Login : string }.
End Owner.

Module Repository.
Record t := mk { FullName : string; Owner : Owner.t }.
End Repository.

Module Step.
Record t := mk {
  Name : string;
  Status : string;
  Conclusion : string;
  StartedAt : Time;
  CompletedAt : Time
}.
End Step.

Module WorkflowJob.
Record t := mk {
  ID : Z;
  RunID : Z;
  RunAttempt : Z;
  Name : string;
  Status : string;
  Conclusion : string;
  Steps : list Step.t;
  HeadBranch : string;
  HeadSha : string;
  RunnerName : string;
  WorkflowName : string;
  CreatedAt : Time;
  CompletedAt : Time
}.
End WorkflowJob.

Module WorkflowRun.
Record t := mk {
  ID : Z;
  RunAttempt : Z;
  Name : string;
  Path : string;
  Status : string;
  Conclusion : string;
  HeadBranch : string;
  HeadSha : string;
  RunStartedAt : Time;
  UpdatedAt : Time;
  Repository : Repository.t
}.
End WorkflowRun.

Module WorkflowJobEvent.
Record t := mk { WorkflowJob : WorkflowJob.t; Repository : Repository.t }.
End WorkflowJobEvent.

Module WorkflowRunEvent.
Record t := mk { WorkflowRun : WorkflowRun.t; Repository : Repository.t }.
End WorkflowRunEvent.

(** The dynamic type of the [event interface{}] argument: one of the two
    event pointers, or anything else. *)
Inductive Event :=
  | JobEvent (e : WorkflowJobEvent.t)
  | RunEvent (e : WorkflowRunEvent.t)
  | OtherEvent.

Module Config.
Record t := mk {
  Endpoint : string;
  Path : string;
  Secret : string;
  CustomServiceName : string;
  ServiceNamePrefix : string;
  ServiceNameSuffix : string
}.
End Config.

(** ** Identifier derivation *)

Module ids.
(** [generateTraceID]; the rendering of the hash has 64 characters, so the
    slice [[:32]] is in range. *)
Definition generateTraceID (runID runAttempt : Z) : list Z * option error :=
  let input := (fmt_d runID ++ fmt_d runAttempt ++ "t")%string in
  let hash := sha256.Sum256 (bytes_of_string input) in
  let traceIDHex := hex.EncodeToString hash in
  let '(traceID, err) := hex.Decode TraceID_zero (str_slice 0 32 traceIDHex) in
  match err with
  | Some e => (TraceID_zero, Some e)
  | None => (traceID, None)
  end.

(** [generateJobSpanID] *)
Definition generateJobSpanID (runID runAttempt : Z) (job : string) : list Z * option error :=
  let input := (fmt_d runID ++ fmt_d runAttempt ++ job)%string in
  let hash := sha256.Sum256 (bytes_of_string input) in
  let spanIDHex := hex.EncodeToString hash in
  let '(spanID, err) := hex.Decode SpanID_zero (str_slice 16 32 spanIDHex) in
  match err with
  | Some e => (SpanID_zero, Some e)
  | None => (spanID, None)
  end.

(** [generateParentSpanID] *)
Definition generateParentSpanID (runID runAttempt : Z) : list Z * option error :=
  let input := (fmt_d runID ++ fmt_d runAttempt ++ "s")%string in
  let hash := sha256.Sum256 (bytes_of_string input) in
  let spanIDHex := hex.EncodeToString hash in
  let '(spanID, err) := hex.Decode SpanID_zero (str_slice 16 32 spanIDHex) in
  match err with
  | Some e => (SpanID_zero, Some e)
  | None => (spanID, None)
  end.
End ids.

(** ** strings and net/http *)

(** [strings.ReplaceAll(s, old, new)] for one-character [old] and [new]. *)
Fixpoint strings_ReplaceAll (s : string) (old new : ascii) : string :=
  match s with
  | EmptyString => EmptyString
  | String c rest =>
      String (if Ascii.eqb c old then new else c) (strings_ReplaceAll rest old new)
  end.

(** [strings.HasPrefix(s, prefix)] *)
Definition strings_HasPrefix (s prefix : string) : bool := String.prefix prefix s.

(** [http.Header] with canonical keys, and [Header.Get]: the first value of
    the key, the empty string when there is none. *)
Definition Header_Get (h : gmap string (list string)) (key : string) : string :=
  match h !! key with
  | Some (v :: _) => v
  | _ => ""
  end.

Module Request.
Record t := mk {
  Header : gmap string (list string);
  URL_Path : string;
  (** what [io.ReadAll(r.Body)] returns *)
  Body : list Z * option error
}.
End Request.

(** What the handler writes: [http.Error(w, msg, code)], the same with the
    message of an error, or [w.WriteHeader(code)]. *)
Inductive Response :=
  | http_Error (msg : string) (code : Z)
  | http_Error_of (e : error) (code : Z)
  | WriteHeader (code : Z).

Definition StatusAccepted : Z := 202.
Definition StatusBadRequest : Z := 400.
Definition StatusUnauthorized : Z := 401.
Definition StatusForbidden : Z := 403.
Definition StatusNotFound : Z := 404.
Definition StatusInternalServerError : Z := 500.

(** The result of a decoder of [encoding/json]. *)
Inductive decoded (T : Type) : Type :=
  | Decoded (v : T)
  | DecodeError (e : error).
Arguments Decoded {T} v.
Arguments DecodeError {T} e.

(** ** Signature verification *)

Definition validateSignatureSHA256 (secret signatureHeader : string) (body : list Z) : go bool :=
  if String.eqb signatureHeader "" || (String.length signatureHeader <? 7)%nat
  then Ret false
  else
    receivedSig ← str_from 7 signatureHeader;
    let expectedSig := hex.EncodeToString (hmac.Sum sha256.Sum256 (bytes_of_string secret) body) in
    Ret (hmac.Equal (bytes_of_string expectedSig) (bytes_of_string receivedSig)).

Definition validateSignatureSHA1 (secret signatureHeader : string) (body : list Z) : go bool :=
  if String.eqb signatureHeader ""
  then Ret false
  else
    receivedSig ← str_from 5 signatureHeader;
    let expectedSig := hex.EncodeToString (hmac.Sum sha1.Sum (bytes_of_string secret) body) in
    Ret (hmac.Equal (bytes_of_string expectedSig) (bytes_of_string receivedSig)).

(** ** The receiver *)

Section Receiver.
(** [strings.ToLower], which follows the Unicode case tables. *)
Variable strings_ToLower : string -> string.

(** The three identifier derivations called by the span builders. The
    receiver runs with those of module [ids]; they are variables here so
    that the handling of their error results can be stated. *)
Variable generateTraceID : Z -> Z -> list Z * option error.
Variable generateParentSpanID : Z -> Z -> list Z * option error.
Variable generateJobSpanID : Z -> Z -> string -> list Z * option error.

(** [crypto/rand.Reader]: the 8-byte reads of one conversion, by their
    position. *)
Variable rand_Reader : nat -> list Z.

(** [json.Unmarshal(blob, &v)] for the three targets. *)
Variable json_Unmarshal_map : list Z -> decoded (gmap string (list Z)).
Variable json_Unmarshal_job : list Z -> decoded WorkflowJobEvent.t.
Variable json_Unmarshal_run : list Z -> decoded WorkflowRunEvent.t.

(** [nextConsumer.ConsumeTraces(ctx, td)] *)
Variable ConsumeTraces : Traces -> option error.

Definition generateServiceName (config : Config.t) (fullName : string) : string :=
  if negb (String.eqb (Config.CustomServiceName config) "")
  then Config.CustomServiceName config
  else
    let formattedName :=
      strings_ToLower
        (strings_ReplaceAll (strings_ReplaceAll fullName "/" "-") "_" "-") in
    (Config.ServiceNamePrefix config ++ formattedName ++ Config.ServiceNameSuffix config)%string.

(** [generateSpanID]: the identifier and the position of the next read. *)
Definition generateSpanID (n : nat) : list Z * nat := (rand_Reader n, S n).

Definition setSpanTimes (span : Span.t) (start end_ : Time) : Span.t :=
  Span.SetEndTimestamp (NewTimestampFromTime end_)
    (Span.SetStartTimestamp (NewTimestampFromTime start) span).

Definition createResourceAttributes (attrs : Map) (event : Event) (config : Config.t) : Map :=
  match event with
  | JobEvent e =>
      let job := WorkflowJobEvent.WorkflowJob e in
      let repo := WorkflowJobEvent.Repository e in
      let serviceName := generateServiceName config (Repository.FullName repo) in
      let attrs := PutStr "service.name" serviceName attrs in
      let attrs := PutStr "ci.system" "github" attrs in
      let attrs := PutStr "ci.actor" (Owner.Login (Repository.Owner repo)) attrs in
      let attrs := PutStr "ci.github.job" (WorkflowJob.Name job) attrs in
      let attrs := PutInt "ci.github.run_id" (WorkflowJob.RunID job) attrs in
      let attrs := PutInt "ci.github.run_attempt" (WorkflowJob.RunAttempt job) attrs in
      let attrs := PutStr "ci.github.runner.name" (WorkflowJob.RunnerName job) attrs in
      let attrs := PutStr "ci.github.workflow" (WorkflowJob.WorkflowName job) attrs in
      let attrs := PutStr "scm.system" "git" attrs in
      let attrs := PutStr "scm.git.branch" (WorkflowJob.HeadBranch job) attrs in
      let attrs := PutStr "scm.git.sha" (WorkflowJob.HeadSha job) attrs in
      PutStr "scm.git.repo" (Repository.FullName repo) attrs
  | RunEvent e =>
      let run := WorkflowRunEvent.WorkflowRun e in
      let repo := WorkflowRunEvent.Repository e in
      let serviceName := generateServiceName config (Repository.FullName repo) in
      let attrs := PutStr "service.name" serviceName attrs in
      let attrs := PutStr "ci.system" "github" attrs in
      let attrs := PutStr "ci.actor" (Owner.Login (Repository.Owner (WorkflowRun.Repository run))) attrs in
      let attrs := PutInt "ci.github.run_id" (WorkflowRun.ID run) attrs in
      let attrs := PutInt "ci.github.run_attempt" (WorkflowRun.RunAttempt run) attrs in
      let attrs := PutStr "ci.github.workflow" (WorkflowRun.Name run) attrs in
      let attrs := PutStr "ci.github.workflow_path" (WorkflowRun.Path run) attrs in
      let attrs := PutStr "scm.system" "git" attrs in
      let attrs := PutStr "scm.git.branch" (WorkflowRun.HeadBranch run) attrs in
      let attrs := PutStr "scm.git.sha" (WorkflowRun.HeadSha run) attrs in
      PutStr "scm.git.repo" (Repository.FullName repo) attrs
  | OtherEvent => attrs
  end.

(** The loop of [createParentSpan] over the steps, with its [break]: the
    final values of [allSuccessful] and [anyFailure]. *)
Fixpoint stepsLoop (steps : list Step.t) (allSuccessful anyFailure : bool) : bool * bool :=
  match steps with
  | [] => (allSuccessful, anyFailure)
  | step :: rest =>
      let allSuccessful :=
        if negb (String.eqb (Step.Status step) "completed")
           || negb (String.eqb (Step.Conclusion step) "success")
        then false else allSuccessful in
      if String.eqb (Step.Conclusion step) "failure"
      then (allSuccessful, true)
      else stepsLoop rest allSuccessful anyFailure
  end.

(** [createParentSpan]: the scope spans with the job span appended, and the
    identifier of that span. *)
Definition createParentSpan (scopeSpans : ScopeSpans) (steps : list Step.t)
    (job : WorkflowJob.t) (traceID : list Z) : ScopeSpans * list Z :=
  let span := Span.empty in
  let span := Span.SetTraceID traceID span in
  let '(parentSpanID, _) := generateParentSpanID (WorkflowJob.RunID job) (WorkflowJob.RunAttempt job) in
  let span := Span.SetParentSpanID parentSpanID span in
  let '(jobSpanID, _) := generateJobSpanID (WorkflowJob.ID job) (WorkflowJob.RunAttempt job) (WorkflowJob.Name job) in
  let span := Span.SetSpanID jobSpanID span in
  let span := Span.SetName (WorkflowJob.Name job) span in
  let span := Span.SetKind SpanKindServer span in
  let span :=
    match steps with
    | first :: _ => setSpanTimes span (Step.StartedAt first) (Step.CompletedAt (List.last steps first))
    | [] => setSpanTimes span (WorkflowJob.CreatedAt job) (WorkflowJob.CompletedAt job)
    end in
  let '(allSuccessful, anyFailure) := stepsLoop steps true false in
  let span :=
    if anyFailure then Span.SetCode StatusCodeError span
    else if allSuccessful then Span.SetCode StatusCodeOk span
    else Span.SetCode StatusCodeUnset span in
  ({| Spans := Spans scopeSpans ++ [span] |}, Span.SpanID span).

(** [createSpan], from position [n] of the random reads. *)
Definition createSpan (scopeSpans : ScopeSpans) (step : Step.t) (traceID parentSpanID : list Z)
    (n : nat) : ScopeSpans * list Z * nat :=
  let span := Span.empty in
  let span := Span.SetTraceID traceID span in
  let span := Span.SetParentSpanID parentSpanID span in
  let '(spanID, n) := generateSpanID n in
  let span := Span.SetSpanID spanID span in
  let span := setSpanTimes span (Step.StartedAt step) (Step.CompletedAt step) in
  let span := Span.SetName (Step.Name step) span in
  let span := Span.SetKind SpanKindServer span in
  let span :=
    if String.eqb (Step.Conclusion step) "success" then Span.SetCode StatusCodeOk span
    else if String.eqb (Step.Conclusion step) "failure" then Span.SetCode StatusCodeError span
    else Span.SetCode StatusCodeUnset span in
  let span := Span.SetMessage (Step.Conclusion step) span in
  ({| Spans := Spans scopeSpans ++ [span] |}, Span.SpanID span, n).

Fixpoint processSteps (scopeSpans : ScopeSpans) (steps : list Step.t) (job : WorkflowJob.t)
    (traceID parentSpanID : list Z) (n : nat) : ScopeSpans * nat :=
  match steps with
  | [] => (scopeSpans, n)
  | step :: rest =>
      let '(scopeSpans, _, n) := createSpan scopeSpans step traceID parentSpanID n in
      processSteps scopeSpans rest job traceID parentSpanID n
  end.

(** [createRootSpan]: the resource spans after the call, and what it
    returns. The scope spans and the span are appended before the
    identifier is derived. *)
Definition createRootSpan (resourceSpans : ResourceSpans) (event : WorkflowRunEvent.t)
    (traceID : list Z) : ResourceSpans * (list Z * option error) :=
  let run := WorkflowRunEvent.WorkflowRun event in
  let span := Span.empty in
  let put (span : Span.t) :=
    {| Resource := Resource resourceSpans;
       ScopeSpansSlice := ScopeSpansSlice resourceSpans ++ [{| Spans := [span] |}] |} in
  let '(rootSpanID, err) := generateParentSpanID (WorkflowRun.ID run) (WorkflowRun.RunAttempt run) in
  match err with
  | Some e => (put span, (SpanID_zero, Some e))
  | None =>
      let span := Span.SetTraceID traceID span in
      let span := Span.SetSpanID rootSpanID span in
      let span := Span.SetName (WorkflowRun.Name run) span in
      let span := Span.SetKind SpanKindServer span in
      let span := setSpanTimes span (WorkflowRun.RunStartedAt run) (WorkflowRun.UpdatedAt run) in
      let span :=
        if String.eqb (WorkflowRun.Conclusion run) "success" then Span.SetCode StatusCodeOk span
        else if String.eqb (WorkflowRun.Conclusion run) "failure" then Span.SetCode StatusCodeError span
        else Span.SetCode StatusCodeUnset span in
      let span := Span.SetMessage (WorkflowRun.Conclusion run) span in
      (put span, (rootSpanID, None))
  end.

(** [eventToTraces]. [traces] is the document built so far: one resource
    spans entry holding [resource] and [scopeSpans]. *)
Definition eventToTraces (event : Event) (config : Config.t) : Traces * option error :=
  let resource : Map := [] in
  let scopeSpans := {| Spans := [] |} in
  let traces (resource : Map) (scopeSpans : ScopeSpans) :=
    TracesOf [{| Resource := resource; ScopeSpansSlice := [scopeSpans] |}] in
  match event with
  | JobEvent e =>
      let job := WorkflowJobEvent.WorkflowJob e in
      let jobResource := createResourceAttributes resource event config in
      let '(traceID, err) := generateTraceID (WorkflowJob.RunID job) (WorkflowJob.RunAttempt job) in
      match err with
      | Some _ => (traces jobResource scopeSpans, Some (errorString "failed to generate trace ID"))
      | None =>
          if String.eqb (WorkflowJob.Status job) "completed" then
            let '(scopeSpans, parentSpanID) :=
              createParentSpan scopeSpans (WorkflowJob.Steps job) job traceID in
            let '(scopeSpans, _) :=
              processSteps scopeSpans (WorkflowJob.Steps job) job traceID parentSpanID 0 in
            (traces jobResource scopeSpans, None)
          else (traces jobResource scopeSpans, None)
      end
  | RunEvent e =>
      let run := WorkflowRunEvent.WorkflowRun e in
      let '(traceID, err) := generateTraceID (WorkflowRun.ID run) (WorkflowRun.RunAttempt run) in
      match err with
      | Some _ => (traces resource scopeSpans, Some (errorString "failed to generate trace ID"))
      | None =>
          if String.eqb (WorkflowRun.Status run) "completed" then
            let runResource := createResourceAttributes resource event config in
            let '(resourceSpans, _) :=
              createRootSpan {| Resource := runResource; ScopeSpansSlice := [scopeSpans] |} e traceID in
            (TracesOf [resourceSpans], None)
          else (traces resource scopeSpans, None)
      end
  | OtherEvent => (Traces_zero, Some (errorString "unknown event type, dropping payload"))
  end.

(** [UnmarshalTraces] *)
Definition UnmarshalTraces (blob : list Z) (config : Config.t) : Traces * option error :=
  match json_Unmarshal_map blob with
  | DecodeError err => (Traces_zero, Some err)
  | Decoded event =>
      if bool_decide (is_Some (event !! "workflow_job")) then
        match json_Unmarshal_job blob with
        | DecodeError err => (Traces_zero, Some err)
        | Decoded jobEvent =>
            match eventToTraces (JobEvent jobEvent) config with
            | (_, Some err) => (Traces_zero, Some err)
            | (traces, None) => (traces, None)
            end
        end
      else if bool_decide (is_Some (event !! "workflow_run")) then
        match json_Unmarshal_run blob with
        | DecodeError err => (Traces_zero, Some err)
        | Decoded runEvent =>
            match eventToTraces (RunEvent runEvent) config with
            | (_, Some err) => (Traces_zero, Some err)
            | (traces, None) => (traces, None)
            end
        end
      else (Traces_zero, Some (errorString "unknown event type"))
  end.

(** The signature check of [ServeHTTP] for a configured secret: [true]
    when the handler answers 401. The SHA-1 header is read in the [else]
    branch of the SHA-256 test. *)
Definition signatureMismatch (config : Config.t) (r : Request.t) (slurp : list Z) : go bool :=
  let signatureSHA256 := Header_Get (Request.Header r) "X-Hub-Signature-256" in
  bad256 ← (if negb (String.eqb signatureSHA256 "")
            then ok ← validateSignatureSHA256 (Config.Secret config) signatureSHA256 slurp; Ret (negb ok)
            else Ret false);
  if (bad256 : bool) then Ret true
  else
    let signatureSHA1 := Header_Get (Request.Header r) "X-Hub-Signature" in
    if negb (String.eqb signatureSHA1 "")
    then ok ← validateSignatureSHA1 (Config.Secret config) signatureSHA1 slurp; Ret (negb ok)
    else Ret false.

(** What follows the signature check in [ServeHTTP]. *)
Definition consume (config : Config.t) (slurp : list Z) : Response :=
  match UnmarshalTraces slurp config with
  | (_, Some err) => http_Error_of err StatusBadRequest
  | (td, None) =>
      match ConsumeTraces td with
      | Some _ => http_Error "Failed to process traces" StatusInternalServerError
      | None => WriteHeader StatusAccepted
      end
  end.

(** [ServeHTTP] *)
Definition ServeHTTP (config : Config.t) (r : Request.t) : go Response :=
  let userAgent := Header_Get (Request.Header r) "User-Agent" in
  if negb (strings_HasPrefix userAgent "GitHub-Hookshot")
  then Ret (http_Error "Forbidden" StatusForbidden)
  else if negb (String.eqb (Request.URL_Path r) (Config.Path config))
  then Ret (http_Error "Not found" StatusNotFound)
  else
    match Request.Body r with
    | (_, Some _) => Ret (http_Error "Failed to read request body" StatusInternalServerError)
    | (slurp, None) =>
        rejected ← (if negb (String.eqb (Config.Secret config) "")
                    then signatureMismatch config r slurp
                    else Ret false);
        if (rejected : bool) then Ret (http_Error "Unauthorized" StatusUnauthorized)
        else Ret (consume config slurp)
    end.
End Receiver.

(** ** The receiver with the derivations of [ids] *)

Section WithIds.
Variable strings_ToLower : string -> string.
Variable rand_Reader : nat -> list Z.
Variable json_Unmarshal_map : list Z -> decoded (gmap string (list Z)).
Variable json_Unmarshal_job : list Z -> decoded WorkflowJobEvent.t.
Variable json_Unmarshal_run : list Z -> decoded WorkflowRunEvent.t.
Variable ConsumeTraces : Traces -> option error.

Definition eventToTraces_ids : Event -> Config.t -> Traces * option error :=
  eventToTraces strings_ToLower
    ids.generateTraceID ids.generateParentSpanID ids.generateJobSpanID rand_Reader.

Definition UnmarshalTraces_ids : list Z -> Config.t -> Traces * option error :=
  UnmarshalTraces strings_ToLower
    ids.generateTraceID ids.generateParentSpanID ids.generateJobSpanID rand_Reader
    json_Unmarshal_map json_Unmarshal_job json_Unmarshal_run.

Definition ServeHTTP_ids : Config.t -> Request.t -> go Response :=
  ServeHTTP strings_ToLower
    ids.generateTraceID ids.generateParentSpanID ids.generateJobSpanID rand_Reader
    json_Unmarshal_map json_Unmarshal_job json_Unmarshal_run ConsumeTraces.
End WithIds.


(** ** Concrete collaborators and sample inputs *)

(** [strings.ToLower] on strings of ASCII characters. *)
Fixpoint lowerASCII (s : string) : string :=
  match s with
  | EmptyString => EmptyString
  | String c rest =>
      let n := N_of_ascii c in
      String (if ((65 <=? n) && (n <=? 90))%N then ascii_of_N (n + 32) else c)
             (lowerASCII rest)
  end.

(** A source of random reads: the [n]-th read is eight times the byte [n+1]. *)
Definition countingReader (n : nat) : list Z := repeat (Z.of_nat (S n)) 8.

Definition t0 : Time := {| UnixNano := 1700000000000000000 |}.
Definition t10 : Time := {| UnixNano := 1700000010000000000 |}.

Definition sampleRepo : Repository.t :=
  Repository.mk "Org/Repo_Name" (Owner.mk "octocat").

Definition sampleConfig : Config.t :=
  Config.mk "localhost:19418" "/ghaevents" "s3cret" "" "ci-" "".

Definition stepOf (name status conclusion : string) : Step.t :=
  Step.mk name status conclusion t0 t10.

(** A job of run 12345, attempt 1, with the given job id, status and steps. *)
Definition sampleJob (id : Z) (status : string) (steps : list Step.t) : WorkflowJob.t :=
  WorkflowJob.mk id 12345 1 "build" status "success" steps
    "main" "0a1b2c" "runner-1" "CI" t0 t10.

Definition sampleJobEvent (id : Z) (status : string) (steps : list Step.t) : WorkflowJobEvent.t :=
  WorkflowJobEvent.mk (sampleJob id status steps) sampleRepo.

Definition sampleRun (status : string) : WorkflowRun.t :=
  WorkflowRun.mk 12345 1 "CI" ".github/workflows/ci.yml" status "success"
    "main" "0a1b2c" t0 t10 sampleRepo.

Definition sampleRunEvent (status : string) : WorkflowRunEvent.t :=
  WorkflowRunEvent.mk (sampleRun status) sampleRepo.

(** Decoders for a payload that carries both top-level keys. *)
Definition bothKeys (blob : list Z) : decoded (gmap string (list Z)) :=
  Decoded (<["workflow_job" := blob]> (<["workflow_run" := blob]> ∅)).

Definition decodeSampleJob (blob : list Z) : decoded WorkflowJobEvent.t :=
  Decoded (sampleJobEvent 7 "completed" [stepOf "build" "completed" "success"]).

Definition decodeSampleRun (blob : list Z) : decoded WorkflowRunEvent.t :=
  Decoded (sampleRunEvent "completed").

Definition rejectRun (blob : list Z) : decoded WorkflowRunEvent.t :=
  DecodeError (json_Error "unexpected end of JSON input").

(** A consumer that accepts every document. *)
Definition acceptAll (td : Traces) : option error := None.





(** ** Vocabulary of the statements *)

(** A value that fits a byte. *)
Definition is_byte (b : Z) : Prop := 0 <= b < 256.

(** A step that failed, and a step that completed with success. *)
Definition isFailure (step : Step.t) : Prop := Step.Conclusion step = "failure".

Definition isSuccess (step : Step.t) : Prop :=
  Step.Status step = "completed" /\ Step.Conclusion step = "success".

(** The identifiers in the words of the specification: the first 16 bytes,
    and bytes 8 to 16, of the SHA-256 hash of a text. *)
Definition hash_16 (text : string) : list Z :=
  firstn 16 (sha256.Sum256 (bytes_of_string text)).

Definition hash_8_16 (text : string) : list Z :=
  firstn 8 (skipn 8 (sha256.Sum256 (bytes_of_string text))).

Definition traceID_of (runID runAttempt : Z) : list Z :=
  hash_16 (fmt_d runID ++ fmt_d runAttempt ++ "t")%string.

(** A request without signature headers, and a configuration without
    secret. *)
Definition plainRequest (body : list Z) : Request.t :=
  let userAgent := "GitHub-Hookshot/abc" :: nil in
  Request.mk (<["User-Agent" := userAgent]> ∅) "/ghaevents" (body, None).

Definition openConfig : Config.t :=
  Config.mk "localhost:19418" "/ghaevents" "" "" "ci-" "".

(** Decoders for payloads with the run key alone and with neither key. *)
Definition runKeyOnly (blob : list Z) : decoded (gmap string (list Z)) :=
  Decoded (<["workflow_run" := blob]> ∅).

Definition otherKeyOnly (blob : list Z) : decoded (gmap string (list Z)) :=
  Decoded (<["ping" := blob]> ∅).

(** A request without any header. *)
Definition anonymousRequest (body : list Z) : Request.t :=
  Request.mk ∅ "/ghaevents" (body, None).

(** A completed job with a passing and a failing step, at different times. *)
Definition twoStepJobEvent : WorkflowJobEvent.t :=
  sampleJobEvent 7 "completed"
    [Step.mk "build" "completed" "success" {| UnixNano := 100 |} {| UnixNano := 200 |};
     Step.mk "test" "completed" "failure" {| UnixNano := 200 |} {| UnixNano := 350 |}].

(** A request with the SHA-1 header alone. *)
Definition sha1Request (body : list Z) (sha1Header : string) : Request.t :=
  let userAgent := "GitHub-Hookshot/abc" :: nil in
  Request.mk
    (<["User-Agent" := userAgent]> (<["X-Hub-Signature" := sha1Header :: nil]> ∅))
    "/ghaevents" (body, None).


(** The status code that [createSpan] and [createRootSpan] give a conclusion. *)
Definition codeOfConclusion (conclusion : string) : StatusCode :=
  if String.eqb conclusion "success" then StatusCodeOk
  else if String.eqb conclusion "failure" then StatusCodeError
  else StatusCodeUnset.

(** [span] is the span of [step] in the trace [traceID] under the parent
    [parentSpanID], whatever its own identifier. *)
Definition stepSpanOf (traceID parentSpanID : list Z) (step : Step.t) (span : Span.t) : Prop :=
  Span.TraceID span = traceID
  /\ Span.ParentSpanID span = parentSpanID
  /\ Span.Name span = Step.Name step
  /\ Span.Kind span = SpanKindServer
  /\ Span.StartTimestamp span = NewTimestampFromTime (Step.StartedAt step)
  /\ Span.EndTimestamp span = NewTimestampFromTime (Step.CompletedAt step)
  /\ Span.Code span = codeOfConclusion (Step.Conclusion step)
  /\ Span.Message span = Step.Conclusion step.

(** The signature a header has to carry: the rendering of the HMAC of the
    body under the secret. *)
Definition expectedSHA256 (secret : string) (body : list Z) : string :=
  hex.EncodeToString (hmac.Sum sha256.Sum256 (bytes_of_string secret) body).

Definition expectedSHA1 (secret : string) (body : list Z) : string :=
  hex.EncodeToString (hmac.Sum sha1.Sum (bytes_of_string secret) body).

(** * Properties *)

(** ** Test vectors of the hashes *)

Example Sum256_abc :
  hex.EncodeToString (sha256.Sum256 (bytes_of_string "abc"))
  = "ba7816bf8f01cfea414140de5dae2223b00361a396177a9cb410ff61f20015ad".
Proof. vm_compute. reflexivity. Qed.

Example Sum256_two_blocks :
  hex.EncodeToString
    (sha256.Sum256 (bytes_of_string "abcdbcdecdefdefgefghfghighijhijkijkljklmklmnlmnomnopnopq"))
  = "248d6a61d20638b8e5c026930c3e6039a33ce45964ff2167f6ecedd419db06c1".
Proof. vm_compute. reflexivity. Qed.

Example sha1_Sum_abc :
  hex.EncodeToString (sha1.Sum (bytes_of_string "abc"))
  = "a9993e364706816aba3e25717850c26c9cd0d89d".
Proof. vm_compute. reflexivity. Qed.

Example hmac_sha256_fox :
  hex.EncodeToString
    (hmac.Sum sha256.Sum256 (bytes_of_string "key")
       (bytes_of_string "The quick brown fox jumps over the lazy dog"))
  = "f7bc83f430538424b13298e6aa6fb143ef4d59a14946175997479dbc2d1a3cd8".
Proof. vm_compute. reflexivity. Qed.

Example hmac_sha1_fox :
  hex.EncodeToString
    (hmac.Sum sha1.Sum (bytes_of_string "key")
       (bytes_of_string "The quick brown fox jumps over the lazy dog"))
  = "de7c9b85b8b78aa6bc8a7a36f70a90701c9db4d9".
Proof. vm_compute. reflexivity. Qed.

Example fmt_d_samples : (fmt_d 12345, fmt_d 0, fmt_d (-5)) = ("12345", "0", "-5").
Proof. reflexivity. Qed.

Example generateServiceName_sample :
  generateServiceName lowerASCII sampleConfig "Org/Repo_Name" = "ci-org-repo-name".
Proof. reflexivity. Qed.

(** ** Hexadecimal rendering *)

Lemma fromHexChar_hexdigit x :
  0 <= x < 16 -> hex.fromHexChar (hex.hexdigit x) = Some x.
Proof.
  intros H.
  assert (Hx : x = 0 \/ x = 1 \/ x = 2 \/ x = 3 \/ x = 4 \/ x = 5 \/ x = 6 \/ x = 7 \/
               x = 8 \/ x = 9 \/ x = 10 \/ x = 11 \/ x = 12 \/ x = 13 \/ x = 14 \/ x = 15)
    by lia.
  repeat (destruct Hx as [-> | Hx]; [reflexivity |]).
  subst x. reflexivity.
Qed.

Lemma byte_nibbles b :
  is_byte b ->
  0 <= Z.shiftr b 4 < 16 /\ 0 <= Z.land b 15 < 16 /\
  Z.lor (Z.shiftl (Z.shiftr b 4) 4) (Z.land b 15) = b.
Proof.
  intros [Hlo Hhi].
  split; [| split].
  - rewrite Z.shiftr_div_pow2 by lia. change (2 ^ 4) with 16.
    split; [apply Z.div_pos; lia | apply Z.div_lt_upper_bound; lia].
  - change 15 with (Z.ones 4). rewrite Z.land_ones by lia.
    apply Z.mod_pos_bound. lia.
  - apply Z.bits_inj'. intros n Hn.
    rewrite Z.lor_spec, Z.land_spec.
    destruct (Z.lt_ge_cases n 4) as [Hlt | Hge].
    + rewrite Z.shiftl_spec_low by lia.
      change 15 with (Z.ones 4). rewrite Z.ones_spec_low by lia.
      rewrite andb_true_r. reflexivity.
    + rewrite Z.shiftl_spec by lia. rewrite Z.shiftr_spec by lia.
      change 15 with (Z.ones 4). rewrite Z.ones_spec_high by lia.
      rewrite andb_false_r, orb_false_r. f_equal. lia.
Qed.

(** Decoding the rendering of bytes gives the bytes back, without error. *)
Lemma decode_loop_EncodeToString bs :
  Forall is_byte bs -> hex.decode_loop (hex.EncodeToString bs) = (bs, None).
Proof.
  induction 1 as [| b bs Hb _ IH]; [reflexivity |].
  destruct (byte_nibbles b Hb) as (Hhi & Hlo & Hb').
  cbn [hex.EncodeToString hex.decode_loop].
  rewrite (fromHexChar_hexdigit _ Hhi), (fromHexChar_hexdigit _ Hlo), IH, Hb'.
  reflexivity.
Qed.

(** A slice of the rendering at even offsets is the rendering of a slice. *)
Lemma substring_EncodeToString_0 n bs :
  String.substring 0 (2 * n) (hex.EncodeToString bs) = hex.EncodeToString (firstn n bs).
Proof.
  revert bs. induction n as [| n IH]; intros bs.
  - destruct bs; reflexivity.
  - replace (2 * S n)%nat with (S (S (2 * n))) by lia.
    destruct bs as [| b bs]; [reflexivity |].
    cbn [hex.EncodeToString String.substring firstn]. rewrite IH. reflexivity.
Qed.

Lemma substring_EncodeToString a n bs :
  String.substring (2 * a) (2 * n) (hex.EncodeToString bs)
  = hex.EncodeToString (firstn n (skipn a bs)).
Proof.
  revert bs. induction a as [| a IH]; intros bs.
  - apply substring_EncodeToString_0.
  - replace (2 * S a)%nat with (S (S (2 * a))) by lia.
    destruct bs as [| b bs].
    + cbn [hex.EncodeToString String.substring skipn]. rewrite firstn_nil.
      destruct (2 * n)%nat; reflexivity.
    + cbn [hex.EncodeToString String.substring skipn]. apply IH.
Qed.

(** ** The hash is 32 bytes *)

Lemma land_255_byte x : is_byte (Z.land x 255).
Proof.
  unfold is_byte. change 255 with (Z.ones 8). rewrite Z.land_ones by lia.
  apply Z.mod_pos_bound. lia.
Qed.

Lemma to_bytes_bytes x : Forall is_byte (u32.to_bytes x).
Proof. unfold u32.to_bytes. repeat constructor; apply land_255_byte. Qed.

Lemma Sum256_bytes data : Forall is_byte (sha256.Sum256 data).
Proof.
  unfold sha256.Sum256, sha256.digest_bytes.
  repeat (apply Forall_app; split); apply to_bytes_bytes.
Qed.

Lemma Sum256_length data : length (sha256.Sum256 data) = 32%nat.
Proof. reflexivity. Qed.

Lemma Forall_firstn_skipn (P : Z -> Prop) a n l :
  Forall P l -> Forall P (firstn n (skipn a l)).
Proof. intros H. apply Forall_take, Forall_drop, H. Qed.

(** ** The derivations of module [ids] never fail *)

(** Decoding a slice of [n] bytes of the rendering into a zero array of [n]
    bytes fills the array with those bytes. *)
Lemma Decode_slice (a n : nat) (h : list Z) :
  Forall is_byte h -> (a + n <= length h)%nat ->
  hex.Decode (repeat 0 n) (str_slice (2 * a) (2 * (a + n)) (hex.EncodeToString h))
  = (firstn n (skipn a h), None).
Proof.
  intros Hb Hlen. unfold hex.Decode, str_slice.
  replace (2 * (a + n) - 2 * a)%nat with (2 * n)%nat by lia.
  rewrite substring_EncodeToString.
  rewrite decode_loop_EncodeToString by (apply Forall_firstn_skipn, Hb).
  cbv beta iota.
  rewrite (drop_ge (repeat 0 n))
    by (rewrite repeat_length, length_take, length_drop; lia).
  rewrite app_nil_r. reflexivity.
Qed.

Lemma generateTraceID_eq runID runAttempt :
  ids.generateTraceID runID runAttempt
  = (traceID_of runID runAttempt, None).
Proof.
  unfold ids.generateTraceID, traceID_of, hash_16.
  pose proof (Decode_slice 0 16 _ (Sum256_bytes
    (bytes_of_string (fmt_d runID ++ fmt_d runAttempt ++ "t")%string))) as H.
  change (2 * 0)%nat with 0%nat in H. change (2 * (0 + 16))%nat with 32%nat in H.
  change (repeat 0 16) with TraceID_zero in H.
  rewrite H by (rewrite Sum256_length; lia). reflexivity.
Qed.

Lemma generateJobSpanID_eq runID runAttempt job :
  ids.generateJobSpanID runID runAttempt job
  = (hash_8_16 (fmt_d runID ++ fmt_d runAttempt ++ job)%string, None).
Proof.
  unfold ids.generateJobSpanID, hash_8_16.
  pose proof (Decode_slice 8 8 _ (Sum256_bytes
    (bytes_of_string (fmt_d runID ++ fmt_d runAttempt ++ job)%string))) as H.
  change (2 * 8)%nat with 16%nat in H. change (2 * (8 + 8))%nat with 32%nat in H.
  change (repeat 0 8) with SpanID_zero in H.
  rewrite H by (rewrite Sum256_length; lia). reflexivity.
Qed.

Lemma generateParentSpanID_eq runID runAttempt :
  ids.generateParentSpanID runID runAttempt
  = (hash_8_16 (fmt_d runID ++ fmt_d runAttempt ++ "s")%string, None).
Proof.
  unfold ids.generateParentSpanID, hash_8_16.
  pose proof (Decode_slice 8 8 _ (Sum256_bytes
    (bytes_of_string (fmt_d runID ++ fmt_d runAttempt ++ "s")%string))) as H.
  change (2 * 8)%nat with 16%nat in H. change (2 * (8 + 8))%nat with 32%nat in H.
  change (repeat 0 8) with SpanID_zero in H.
  rewrite H by (rewrite Sum256_length; lia). reflexivity.
Qed.

(** ** Span assembly *)

(** The loop stops at the first failed step, so [anyFailure] ends up set
    exactly when some step failed. *)
Lemma stepsLoop_anyFailure steps allSuccessful :
  snd (stepsLoop steps allSuccessful false) = true <-> Exists isFailure steps.
Proof.
  revert allSuccessful. induction steps as [| step rest IH]; intros allSuccessful.
  - cbn. split; [discriminate | intros H; inversion H].
  - cbn [stepsLoop]. destruct (String.eqb (Step.Conclusion step) "failure") eqn:E.
    + cbn. split; [intros _ | reflexivity].
      left. apply String.eqb_eq, E.
    + rewrite IH. split; [intros H; right; exact H |].
      intros H. inversion H as [? ? Hf | ? ? Hr]; subst; [| exact Hr].
      unfold isFailure in Hf. apply String.eqb_eq in Hf. congruence.
Qed.

(** Without a failed step the loop visits every step, and [allSuccessful]
    stays set exactly when every step completed with success. *)
Lemma stepsLoop_allSuccessful steps allSuccessful :
  ~ Exists isFailure steps ->
  (fst (stepsLoop steps allSuccessful false) = true
   <-> allSuccessful = true /\ Forall isSuccess steps).
Proof.
  revert allSuccessful. induction steps as [| step rest IH]; intros allSuccessful Hno.
  - cbn. split; [intros H; split; [exact H | constructor] | intros [H _]; exact H].
  - cbn [stepsLoop].
    destruct (String.eqb (Step.Conclusion step) "failure") eqn:E.
    { exfalso. apply Hno. left. apply String.eqb_eq, E. }
    rewrite IH by (intros H; apply Hno; right; exact H).
    destruct (String.eqb (Step.Status step) "completed") eqn:Es;
      destruct (String.eqb (Step.Conclusion step) "success") eqn:Ec; cbn.
    + apply String.eqb_eq in Es, Ec.
      split; intros [Ha Hf]; (split; [exact Ha |]).
      * constructor; [split; assumption | exact Hf].
      * inversion Hf; assumption.
    + apply String.eqb_neq in Ec.
      split; [intros [? _]; discriminate | intros [_ Hf]].
      inversion Hf as [| ? ? [_ Hc] _]. congruence.
    + apply String.eqb_neq in Es.
      split; [intros [? _]; discriminate | intros [_ Hf]].
      inversion Hf as [| ? ? [Hs _] _]. congruence.
    + apply String.eqb_neq in Es.
      split; [intros [? _]; discriminate | intros [_ Hf]].
      inversion Hf as [| ? ? [Hs _] _]. congruence.
Qed.

Section Assembly.
Variable generateParentSpanID : Z -> Z -> list Z * option error.
Variable generateJobSpanID : Z -> Z -> string -> list Z * option error.
Variable rand_Reader : nat -> list Z.

(** What [createParentSpan] appends: one span, with these fields. *)
Lemma createParentSpan_fields scopeSpans steps job traceID :
  exists span,
    createParentSpan generateParentSpanID generateJobSpanID scopeSpans steps job traceID
    = ({| Spans := Spans scopeSpans ++ [span] |}, Span.SpanID span)
    /\ Span.TraceID span = traceID
    /\ Span.ParentSpanID span
       = fst (generateParentSpanID (WorkflowJob.RunID job) (WorkflowJob.RunAttempt job))
    /\ Span.SpanID span
       = fst (generateJobSpanID (WorkflowJob.ID job) (WorkflowJob.RunAttempt job)
                (WorkflowJob.Name job))
    /\ Span.Name span = WorkflowJob.Name job
    /\ Span.Kind span = SpanKindServer
    /\ (Span.StartTimestamp span, Span.EndTimestamp span)
       = match steps with
         | first :: _ =>
             (NewTimestampFromTime (Step.StartedAt first),
              NewTimestampFromTime (Step.CompletedAt (List.last steps first)))
         | [] =>
             (NewTimestampFromTime (WorkflowJob.CreatedAt job),
              NewTimestampFromTime (WorkflowJob.CompletedAt job))
         end
    /\ Span.Code span
       = (if snd (stepsLoop steps true false) then StatusCodeError
          else if fst (stepsLoop steps true false) then StatusCodeOk
          else StatusCodeUnset).
Proof.
  unfold createParentSpan.
  destruct (generateParentSpanID _ _) as [parentSpanID e1].
  destruct (generateJobSpanID _ _ _) as [jobSpanID e2].
  destruct (stepsLoop steps true false) as [allSuccessful anyFailure].
  eexists. split; [reflexivity |].
  destruct steps, anyFailure, allSuccessful; cbn; repeat split; reflexivity.
Qed.

(** [processSteps] appends one span per step, each in the given trace and
    under the given parent. *)
Lemma processSteps_spans steps : forall scopeSpans job traceID parentSpanID n,
  exists added,
    Spans (fst (processSteps rand_Reader scopeSpans steps job traceID parentSpanID n))
    = Spans scopeSpans ++ added
    /\ length added = length steps
    /\ Forall (fun span => Span.TraceID span = traceID
                           /\ Span.ParentSpanID span = parentSpanID) added.
Proof.
  induction steps as [| step rest IH]; intros scopeSpans job traceID parentSpanID n.
  - exists []. cbn. rewrite app_nil_r. repeat split. constructor.
  - cbn [processSteps]. unfold createSpan, generateSpanID.
    match goal with
    | |- context [processSteps _ ?ss rest job traceID parentSpanID ?m] =>
        destruct (IH ss job traceID parentSpanID m) as (added & Heq & Hlen & Hall)
    end.
    eexists (_ :: added). rewrite Heq. cbn [Spans].
    rewrite <- app_assoc. split; [reflexivity |].
    split; [cbn; rewrite Hlen; reflexivity |].
    constructor; [| exact Hall].
    destruct (String.eqb (Step.Conclusion step) "success");
      [| destruct (String.eqb (Step.Conclusion step) "failure")]; split; reflexivity.
Qed.
End Assembly.

(** ** Conversion of an event *)

Section Conversion.
Variable strings_ToLower : string -> string.
Variable rand_Reader : nat -> list Z.

(** A completed job event yields the job span followed by one span per step,
    in one scope, and no error. *)
Lemma completed_job_document (e : WorkflowJobEvent.t) (config : Config.t) :
  let job := WorkflowJobEvent.WorkflowJob e in
  let steps := WorkflowJob.Steps job in
  let traceID := traceID_of (WorkflowJob.RunID job) (WorkflowJob.RunAttempt job) in
  WorkflowJob.Status job = "completed" ->
  exists jobSpan stepSpans,
    eventToTraces_ids strings_ToLower rand_Reader (JobEvent e) config
    = (TracesOf [{| Resource := createResourceAttributes strings_ToLower [] (JobEvent e) config;
                    ScopeSpansSlice := [{| Spans := jobSpan :: stepSpans |}] |}], None)
    /\ createParentSpan ids.generateParentSpanID ids.generateJobSpanID
         {| Spans := [] |} steps job traceID
       = ({| Spans := [jobSpan] |}, Span.SpanID jobSpan)
    /\ length stepSpans = length steps
    /\ Forall (fun span => Span.TraceID span = traceID
                           /\ Span.ParentSpanID span = Span.SpanID jobSpan) stepSpans.
Proof.
  intros job steps traceID Hstatus.
  unfold eventToTraces_ids, eventToTraces.
  subst job steps traceID. rewrite generateTraceID_eq.
  rewrite Hstatus. cbn [String.eqb Ascii.eqb Bool.eqb].
  set (job := WorkflowJobEvent.WorkflowJob e) in *.
  set (traceID := traceID_of _ _).
  destruct (createParentSpan_fields ids.generateParentSpanID ids.generateJobSpanID
              {| Spans := [] |} (WorkflowJob.Steps job) job traceID)
    as (jobSpan & Hparent & _).
  cbn [Spans app] in Hparent. rewrite Hparent.
  destruct (processSteps_spans rand_Reader (WorkflowJob.Steps job)
              {| Spans := [jobSpan] |} job traceID (Span.SpanID jobSpan) 0)
    as (added & Hspans & Hlen & Hall).
  destruct (processSteps _ _ _ _ _ _ _) as [[spans] n].
  cbn [Spans app fst] in Hspans. subst spans.
  exists jobSpan, added. repeat split; assumption || reflexivity.
Qed.

(** A job event that is not completed yields the resource and an empty scope. *)
Lemma pending_job_document (e : WorkflowJobEvent.t) (config : Config.t) :
  WorkflowJob.Status (WorkflowJobEvent.WorkflowJob e) <> "completed" ->
  eventToTraces_ids strings_ToLower rand_Reader (JobEvent e) config
  = (TracesOf [{| Resource := createResourceAttributes strings_ToLower [] (JobEvent e) config;
                  ScopeSpansSlice := [{| Spans := [] |}] |}], None).
Proof.
  intros Hstatus. unfold eventToTraces_ids, eventToTraces.
  rewrite generateTraceID_eq.
  apply String.eqb_neq in Hstatus. rewrite Hstatus. reflexivity.
Qed.

(** A completed run event yields the empty scope of [eventToTraces] and the
    scope of [createRootSpan] with the root span. *)
Lemma completed_run_document (e : WorkflowRunEvent.t) (config : Config.t) :
  let run := WorkflowRunEvent.WorkflowRun e in
  WorkflowRun.Status run = "completed" ->
  exists rootSpan,
    eventToTraces_ids strings_ToLower rand_Reader (RunEvent e) config
    = (TracesOf [{| Resource := createResourceAttributes strings_ToLower [] (RunEvent e) config;
                    ScopeSpansSlice := [{| Spans := [] |}; {| Spans := [rootSpan] |}] |}], None)
    /\ Span.TraceID rootSpan = traceID_of (WorkflowRun.ID run) (WorkflowRun.RunAttempt run)
    /\ Span.SpanID rootSpan
       = fst (ids.generateParentSpanID (WorkflowRun.ID run) (WorkflowRun.RunAttempt run))
    /\ Span.ParentSpanID rootSpan = SpanID_zero.
Proof.
  intros run Hstatus.
  unfold eventToTraces_ids, eventToTraces, createRootSpan.
  fold run. rewrite generateTraceID_eq, generateParentSpanID_eq.
  rewrite Hstatus. cbn [String.eqb Ascii.eqb Bool.eqb].
  eexists. split; [reflexivity |].
  destruct (String.eqb (WorkflowRun.Conclusion run) "success");
    [| destruct (String.eqb (WorkflowRun.Conclusion run) "failure")];
    repeat split; reflexivity.
Qed.

Lemma pending_run_document (e : WorkflowRunEvent.t) (config : Config.t) :
  WorkflowRun.Status (WorkflowRunEvent.WorkflowRun e) <> "completed" ->
  eventToTraces_ids strings_ToLower rand_Reader (RunEvent e) config
  = (TracesOf [{| Resource := []; ScopeSpansSlice := [{| Spans := [] |}] |}], None).
Proof.
  intros Hstatus. unfold eventToTraces_ids, eventToTraces.
  rewrite generateTraceID_eq.
  apply String.eqb_neq in Hstatus. rewrite Hstatus. reflexivity.
Qed.
End Conversion.

(** ** Job and run documents *)

Lemma all_spans_one_scope resource spans :
  all_spans (TracesOf [{| Resource := resource; ScopeSpansSlice := [{| Spans := spans |}] |}])
  = spans.
Proof. cbn. rewrite !app_nil_r. reflexivity. Qed.

Section Documents.
Variable strings_ToLower : string -> string.
Variable rand_Reader : nat -> list Z.

(** C3: for a completed job the status code of the job span, the first span
    of the document, is Error when some step has conclusion "failure";
    otherwise Ok when every step has status "completed" and conclusion
    "success"; otherwise Unset. *)
Theorem job_status_aggregation (e : WorkflowJobEvent.t) (config : Config.t) :
  let job := WorkflowJobEvent.WorkflowJob e in
  let steps := WorkflowJob.Steps job in
  let result := eventToTraces_ids strings_ToLower rand_Reader (JobEvent e) config in
  WorkflowJob.Status job = "completed" ->
  exists jobSpan stepSpans,
    all_spans (fst result) = jobSpan :: stepSpans
    /\ snd result = None
    /\ (Exists isFailure steps -> Span.Code jobSpan = StatusCodeError)
    /\ (~ Exists isFailure steps -> Forall isSuccess steps ->
        Span.Code jobSpan = StatusCodeOk)
    /\ (~ Exists isFailure steps -> ~ Forall isSuccess steps ->
        Span.Code jobSpan = StatusCodeUnset).
Proof.
  intros job steps result Hstatus. subst result.
  destruct (completed_job_document strings_ToLower rand_Reader e config Hstatus)
    as (jobSpan & stepSpans & Hdoc & Hparent & _).
  fold job steps in Hparent.
  destruct (createParentSpan_fields ids.generateParentSpanID ids.generateJobSpanID
              {| Spans := [] |} steps job
              (traceID_of (WorkflowJob.RunID job) (WorkflowJob.RunAttempt job)))
    as (span & Hspan & _ & _ & _ & _ & _ & _ & Hcode).
  rewrite Hparent in Hspan. injection Hspan as Hspan _. subst span.
  exists jobSpan, stepSpans. rewrite Hdoc. cbn [fst snd].
  split; [apply all_spans_one_scope |].
  split; [reflexivity |].
  pose proof (stepsLoop_anyFailure steps true) as Hany.
  pose proof (stepsLoop_allSuccessful steps true) as Hall.
  destruct (stepsLoop steps true false) as [allSuccessful anyFailure].
  cbn [fst snd] in *.
  repeat split.
  - intros Hf. apply Hany in Hf. rewrite Hf in Hcode. exact Hcode.
  - intros Hno Hok. destruct anyFailure; [exfalso; apply Hno, Hany; reflexivity |].
    destruct (Hall Hno) as [_ Hback]. rewrite Hback in Hcode by (split; [reflexivity | exact Hok]).
    exact Hcode.
  - intros Hno Hnok. destruct anyFailure; [exfalso; apply Hno, Hany; reflexivity |].
    destruct allSuccessful; [| exact Hcode].
    exfalso. apply Hnok. apply (Hall Hno). reflexivity.
Qed.

(** C10: a completed job without steps yields exactly one span, the job
    span, with status code Ok and the time range from CreatedAt to
    CompletedAt of the job. *)
Theorem empty_steps_job_span (e : WorkflowJobEvent.t) (config : Config.t) :
  let job := WorkflowJobEvent.WorkflowJob e in
  let result := eventToTraces_ids strings_ToLower rand_Reader (JobEvent e) config in
  WorkflowJob.Status job = "completed" ->
  WorkflowJob.Steps job = [] ->
  exists jobSpan,
    all_spans (fst result) = [jobSpan]
    /\ snd result = None
    /\ Span.Code jobSpan = StatusCodeOk
    /\ Span.StartTimestamp jobSpan = NewTimestampFromTime (WorkflowJob.CreatedAt job)
    /\ Span.EndTimestamp jobSpan = NewTimestampFromTime (WorkflowJob.CompletedAt job).
Proof.
  intros job result Hstatus Hsteps. subst result.
  destruct (completed_job_document strings_ToLower rand_Reader e config Hstatus)
    as (jobSpan & stepSpans & Hdoc & Hparent & Hlen & _).
  fold job in Hparent, Hlen. rewrite Hsteps in Hparent, Hlen.
  destruct stepSpans; [| discriminate Hlen].
  destruct (createParentSpan_fields ids.generateParentSpanID ids.generateJobSpanID
              {| Spans := [] |} [] job
              (traceID_of (WorkflowJob.RunID job) (WorkflowJob.RunAttempt job)))
    as (span & Hspan & _ & _ & _ & _ & _ & Htimes & Hcode).
  rewrite Hparent in Hspan. injection Hspan as Hspan _. subst span.
  injection Htimes as Hstart Hend.
  exists jobSpan. rewrite Hdoc. cbn [fst snd].
  split; [apply all_spans_one_scope |].
  repeat split; assumption || reflexivity.
Qed.

(** C7: a job event whose status is not "completed" converts without error
    into a document with no span and with the twelve resource attributes of
    a job. *)
Theorem pending_job_resource_only (e : WorkflowJobEvent.t) (config : Config.t) :
  let job := WorkflowJobEvent.WorkflowJob e in
  let repo := WorkflowJobEvent.Repository e in
  WorkflowJob.Status job <> "completed" ->
  exists td,
    eventToTraces_ids strings_ToLower rand_Reader (JobEvent e) config = (td, None)
    /\ SpanCount td = 0%nat
    /\ map Resource (ResourceSpansSlice td)
       = [[("service.name",
             ValueStr (generateServiceName strings_ToLower config (Repository.FullName repo)));
           ("ci.system", ValueStr "github");
           ("ci.actor", ValueStr (Owner.Login (Repository.Owner repo)));
           ("ci.github.job", ValueStr (WorkflowJob.Name job));
           ("ci.github.run_id", ValueInt (WorkflowJob.RunID job));
           ("ci.github.run_attempt", ValueInt (WorkflowJob.RunAttempt job));
           ("ci.github.runner.name", ValueStr (WorkflowJob.RunnerName job));
           ("ci.github.workflow", ValueStr (WorkflowJob.WorkflowName job));
           ("scm.system", ValueStr "git");
           ("scm.git.branch", ValueStr (WorkflowJob.HeadBranch job));
           ("scm.git.sha", ValueStr (WorkflowJob.HeadSha job));
           ("scm.git.repo", ValueStr (Repository.FullName repo))]].
Proof.
  intros job repo Hstatus.
  eexists. split; [apply pending_job_document, Hstatus |].
  split; reflexivity.
Qed.

(** C9: a run event whose status is not "completed" converts without error
    into a document with no span and no resource attribute. *)
Theorem pending_run_empty_document (e : WorkflowRunEvent.t) (config : Config.t) :
  WorkflowRun.Status (WorkflowRunEvent.WorkflowRun e) <> "completed" ->
  exists td,
    eventToTraces_ids strings_ToLower rand_Reader (RunEvent e) config = (td, None)
    /\ SpanCount td = 0%nat
    /\ map Resource (ResourceSpansSlice td) = [[]].
Proof.
  intros Hstatus.
  eexists. split; [apply pending_run_document, Hstatus |].
  split; reflexivity.
Qed.

(** C4: the spans of a job event and of a run event for the same run and
    attempt all carry the trace identifier made of the first 16 bytes of the
    SHA-256 hash of the decimal run id, the decimal attempt and "t"; both
    documents have spans once the event is completed; for run 12345, attempt
    1 the hashed text is "123451t". *)
Theorem trace_id_shared_by_job_and_run
    (je : WorkflowJobEvent.t) (re : WorkflowRunEvent.t) (config : Config.t) :
  let job := WorkflowJobEvent.WorkflowJob je in
  let run := WorkflowRunEvent.WorkflowRun re in
  let jobDoc := fst (eventToTraces_ids strings_ToLower rand_Reader (JobEvent je) config) in
  let runDoc := fst (eventToTraces_ids strings_ToLower rand_Reader (RunEvent re) config) in
  let traceID :=
    hash_16 (fmt_d (WorkflowRun.ID run) ++ fmt_d (WorkflowRun.RunAttempt run) ++ "t")%string in
  WorkflowJob.RunID job = WorkflowRun.ID run ->
  WorkflowJob.RunAttempt job = WorkflowRun.RunAttempt run ->
  Forall (fun span => Span.TraceID span = traceID) (all_spans jobDoc)
  /\ Forall (fun span => Span.TraceID span = traceID) (all_spans runDoc)
  /\ (WorkflowJob.Status job = "completed" -> all_spans jobDoc <> [])
  /\ (WorkflowRun.Status run = "completed" -> all_spans runDoc <> [])
  /\ ids.generateTraceID 12345 1 = (hash_16 "123451t", None).
Proof.
  intros job run jobDoc runDoc traceID Hid Hattempt. subst jobDoc runDoc.
  assert (Hjob : forall td, WorkflowJob.Status job = "completed" ->
            td = fst (eventToTraces_ids strings_ToLower rand_Reader (JobEvent je) config) ->
            Forall (fun span => Span.TraceID span = traceID) (all_spans td)
            /\ all_spans td <> []).
  { intros td Hstatus ->.
    destruct (completed_job_document strings_ToLower rand_Reader je config Hstatus)
      as (jobSpan & stepSpans & Hdoc & Hparent & _ & Hall).
    fold job in Hparent, Hall. rewrite Hid, Hattempt in Hparent, Hall.
    destruct (createParentSpan_fields ids.generateParentSpanID ids.generateJobSpanID
                {| Spans := [] |} (WorkflowJob.Steps job) job
                (traceID_of (WorkflowRun.ID run) (WorkflowRun.RunAttempt run)))
      as (span & Hspan & Htrace & _).
    rewrite Hparent in Hspan. injection Hspan as Hspan _. subst span.
    rewrite Hdoc. cbn [fst]. rewrite all_spans_one_scope. split; [| discriminate].
    constructor; [exact Htrace |].
    eapply Forall_impl; [exact Hall |]. intros span [H _]. exact H. }
  assert (Hrun : forall td, WorkflowRun.Status run = "completed" ->
            td = fst (eventToTraces_ids strings_ToLower rand_Reader (RunEvent re) config) ->
            Forall (fun span => Span.TraceID span = traceID) (all_spans td)
            /\ all_spans td <> []).
  { intros td Hstatus ->.
    destruct (completed_run_document strings_ToLower rand_Reader re config Hstatus)
      as (rootSpan & Hdoc & Htrace & _).
    rewrite Hdoc. cbn. split; [| discriminate].
    constructor; [exact Htrace | constructor]. }
  split; [| split; [| split; [| split]]].
  - destruct (String.eqb_spec (WorkflowJob.Status job) "completed") as [Hs | Hs].
    + apply (Hjob _ Hs eq_refl).
    + rewrite (pending_job_document strings_ToLower rand_Reader je config Hs). constructor.
  - destruct (String.eqb_spec (WorkflowRun.Status run) "completed") as [Hs | Hs].
    + apply (Hrun _ Hs eq_refl).
    + rewrite (pending_run_document strings_ToLower rand_Reader re config Hs). constructor.
  - intros Hs. apply (Hjob _ Hs eq_refl).
  - intros Hs. apply (Hrun _ Hs eq_refl).
  - apply generateTraceID_eq.
Qed.
End Documents.

(** The job span identifier hashes the job's own [ID] field, the attempt and
    the name; the parent identifier hashes [RunID], the attempt and "s". *)
Lemma job_span_identifiers strings_ToLower rand_Reader
    (e : WorkflowJobEvent.t) (config : Config.t) :
  let job := WorkflowJobEvent.WorkflowJob e in
  WorkflowJob.Status job = "completed" ->
  exists jobSpan stepSpans,
    all_spans (fst (eventToTraces_ids strings_ToLower rand_Reader (JobEvent e) config))
    = jobSpan :: stepSpans
    /\ Span.SpanID jobSpan
       = hash_8_16 (fmt_d (WorkflowJob.ID job) ++ fmt_d (WorkflowJob.RunAttempt job)
                      ++ WorkflowJob.Name job)%string
    /\ Span.ParentSpanID jobSpan
       = hash_8_16 (fmt_d (WorkflowJob.RunID job) ++ fmt_d (WorkflowJob.RunAttempt job)
                      ++ "s")%string.
Proof.
  intros job Hstatus.
  destruct (completed_job_document strings_ToLower rand_Reader e config Hstatus)
    as (jobSpan & stepSpans & Hdoc & Hparent & _).
  fold job in Hparent.
  destruct (createParentSpan_fields ids.generateParentSpanID ids.generateJobSpanID
              {| Spans := [] |} (WorkflowJob.Steps job) job
              (traceID_of (WorkflowJob.RunID job) (WorkflowJob.RunAttempt job)))
    as (span & Hspan & _ & Hpid & Hsid & _).
  rewrite Hparent in Hspan. injection Hspan as Hspan _. subst span.
  rewrite generateParentSpanID_eq in Hpid. rewrite generateJobSpanID_eq in Hsid.
  exists jobSpan, stepSpans. rewrite Hdoc. cbn [fst].
  split; [apply all_spans_one_scope |]. split; assumption.
Qed.

(** C1: two completed jobs of run 12345, attempt 1, both named "build", with
    job ids 10 and 11: their job spans get different identifiers, the hashes
    of "101build" and "111build", and neither is the hash of "123451build",
    the text made of RunID, RunAttempt and the name. *)
Theorem job_span_id_hashes_job_id :
  let spanIDs id :=
    map Span.SpanID
      (all_spans (fst (eventToTraces_ids lowerASCII countingReader
                         (JobEvent (sampleJobEvent id "completed" [])) sampleConfig))) in
  spanIDs 10 = [hash_8_16 "101build"]
  /\ spanIDs 11 = [hash_8_16 "111build"]
  /\ spanIDs 10 <> spanIDs 11
  /\ spanIDs 10 <> [hash_8_16 "123451build"].
Proof.
  cbv zeta. split; [| split; [| split]]; vm_compute; congruence.
Qed.

(** ** Signature verification *)

(** The SHA-256 verifier always returns, and returns false for a header
    shorter than "sha256=". *)
Lemma validateSignatureSHA256_total secret signatureHeader body :
  exists ok, validateSignatureSHA256 secret signatureHeader body = Ret ok.
Proof.
  unfold validateSignatureSHA256, str_from.
  destruct (String.eqb signatureHeader ""); [eexists; reflexivity |].
  cbn [orb].
  destruct (Nat.ltb_spec (String.length signatureHeader) 7) as [Hlt | Hge];
    [eexists; reflexivity |].
  destruct (Nat.leb_spec 7 (String.length signatureHeader)) as [_ | Hlt]; [| lia].
  eexists. reflexivity.
Qed.

Lemma validateSignatureSHA256_short secret signatureHeader body :
  (String.length signatureHeader < 7)%nat ->
  validateSignatureSHA256 secret signatureHeader body = Ret false.
Proof.
  intros Hlt. unfold validateSignatureSHA256.
  destruct (Nat.ltb_spec (String.length signatureHeader) 7) as [_ | Hge]; [| lia].
  rewrite orb_true_r. reflexivity.
Qed.


(** C2: for the secret "s3cret" and the body "{}", the SHA-1 verifier given
    the four-character header "sha1" does not return: slicing off the prefix
    panics. The SHA-256 verifier given "sha256" returns false, and the
    handler, given the SHA-1 header alone, panics as well. *)
Theorem sha1_short_header_panics :
  validateSignatureSHA1 "s3cret" "sha1" (bytes_of_string "{}")
  = Panic "slice bounds out of range"
  /\ validateSignatureSHA256 "s3cret" "sha256" (bytes_of_string "{}") = Ret false
  /\ ServeHTTP_ids lowerASCII countingReader bothKeys decodeSampleJob decodeSampleRun acceptAll
       sampleConfig
       (sha1Request (bytes_of_string "{}") "sha1")
     = Panic "slice bounds out of range".
Proof.
  split; [| split]; vm_compute; reflexivity.
Qed.

Section Handler.
Variable strings_ToLower : string -> string.
Variable rand_Reader : nat -> list Z.
Variable json_Unmarshal_map : list Z -> decoded (gmap string (list Z)).
Variable json_Unmarshal_job : list Z -> decoded WorkflowJobEvent.t.
Variable json_Unmarshal_run : list Z -> decoded WorkflowRunEvent.t.
Variable ConsumeTraces : Traces -> option error.


End Handler.


(** ** Classification *)

Section Classification.
Variable strings_ToLower : string -> string.
Variable generateTraceID : Z -> Z -> list Z * option error.
Variable generateParentSpanID : Z -> Z -> list Z * option error.
Variable generateJobSpanID : Z -> Z -> string -> list Z * option error.
Variable rand_Reader : nat -> list Z.
Variable json_Unmarshal_map : list Z -> decoded (gmap string (list Z)).
Variable json_Unmarshal_job : list Z -> decoded WorkflowJobEvent.t.

(** C8: a payload whose top-level object has both "workflow_job" and
    "workflow_run" is handled as a job event: the result is that of decoding
    and converting the job event, and it is the same whatever the decoder of
    run events would make of the payload. *)
Theorem job_key_takes_precedence
    (json_Unmarshal_run json_Unmarshal_run' : list Z -> decoded WorkflowRunEvent.t)
    (blob : list Z) (config : Config.t) (event : gmap string (list Z)) :
  let unmarshal decodeRun :=
    UnmarshalTraces strings_ToLower generateTraceID generateParentSpanID generateJobSpanID
      rand_Reader json_Unmarshal_map json_Unmarshal_job decodeRun blob config in
  json_Unmarshal_map blob = Decoded event ->
  is_Some (event !! "workflow_job") ->
  is_Some (event !! "workflow_run") ->
  unmarshal json_Unmarshal_run
  = match json_Unmarshal_job blob with
    | DecodeError err => (Traces_zero, Some err)
    | Decoded jobEvent =>
        match eventToTraces strings_ToLower generateTraceID generateParentSpanID
                generateJobSpanID rand_Reader (JobEvent jobEvent) config with
        | (_, Some err) => (Traces_zero, Some err)
        | (traces, None) => (traces, None)
        end
    end
  /\ unmarshal json_Unmarshal_run = unmarshal json_Unmarshal_run'.
Proof.
  intros unmarshal Hmap Hjob _. subst unmarshal. unfold UnmarshalTraces.
  rewrite Hmap, (bool_decide_eq_true_2 _ Hjob). split; reflexivity.
Qed.


End Classification.


(** * The statements at sample inputs *)

(** The three step lists of the specification: success twice, a failure,
    a skipped step. *)
Lemma job_status_aggregation_witness :
  let code steps :=
    map Span.Code
      (firstn 1 (all_spans (fst (eventToTraces_ids lowerASCII countingReader
                                   (JobEvent (sampleJobEvent 7 "completed" steps))
                                   sampleConfig)))) in
  let ok := stepOf "checkout" "completed" "success" in
  WorkflowJob.Status (sampleJob 7 "completed" [ok; ok]) = "completed"
  /\ code [ok; ok] = [StatusCodeOk]
  /\ code [ok; stepOf "test" "completed" "failure"] = [StatusCodeError]
  /\ code [ok; stepOf "deploy" "completed" "skipped"] = [StatusCodeUnset].
Proof.
  cbv zeta. split; [reflexivity |].
  split; [| split].
  - destruct (job_status_aggregation lowerASCII countingReader
                (sampleJobEvent 7 "completed"
                   [stepOf "checkout" "completed" "success";
                    stepOf "checkout" "completed" "success"])
                sampleConfig eq_refl) as (jobSpan & stepSpans & Hspans & _ & _ & Hok & _).
    rewrite Hspans. cbn [firstn map]. f_equal. apply Hok.
    + intros H. inversion H as [? ? Hf | ? ? Hr]; [discriminate Hf |].
      inversion Hr as [? ? Hf | ? ? Hr']; [discriminate Hf | inversion Hr'].
    + repeat constructor.
  - destruct (job_status_aggregation lowerASCII countingReader
                (sampleJobEvent 7 "completed"
                   [stepOf "checkout" "completed" "success";
                    stepOf "test" "completed" "failure"])
                sampleConfig eq_refl) as (jobSpan & stepSpans & Hspans & _ & Herror & _).
    rewrite Hspans. cbn [firstn map]. f_equal. apply Herror.
    right. left. reflexivity.
  - destruct (job_status_aggregation lowerASCII countingReader
                (sampleJobEvent 7 "completed"
                   [stepOf "checkout" "completed" "success";
                    stepOf "deploy" "completed" "skipped"])
                sampleConfig eq_refl) as (jobSpan & stepSpans & Hspans & _ & _ & _ & Hunset).
    rewrite Hspans. cbn [firstn map]. f_equal. apply Hunset.
    + intros H. inversion H as [? ? Hf | ? ? Hr]; [discriminate Hf |].
      inversion Hr as [? ? Hf | ? ? Hr']; [discriminate Hf | inversion Hr'].
    + intros H. inversion H as [| ? ? _ Hr]. inversion Hr as [| ? ? [_ Hc] _].
      discriminate Hc.
Defined.

(** A completed job without steps. *)
Lemma empty_steps_job_span_witness :
  let e := sampleJobEvent 7 "completed" [] in
  WorkflowJob.Status (WorkflowJobEvent.WorkflowJob e) = "completed"
  /\ WorkflowJob.Steps (WorkflowJobEvent.WorkflowJob e) = []
  /\ exists jobSpan,
       all_spans (fst (eventToTraces_ids lowerASCII countingReader (JobEvent e) sampleConfig))
       = [jobSpan]
       /\ Span.Code jobSpan = StatusCodeOk
       /\ Span.StartTimestamp jobSpan = 1700000000000000000
       /\ Span.EndTimestamp jobSpan = 1700000010000000000.
Proof.
  cbv zeta. split; [reflexivity |]. split; [reflexivity |].
  destruct (empty_steps_job_span lowerASCII countingReader (sampleJobEvent 7 "completed" [])
              sampleConfig eq_refl eq_refl)
    as (jobSpan & Hspans & _ & Hcode & Hstart & Hend).
  exists jobSpan. repeat split; assumption.
Defined.

(** A job in progress: no span, the twelve attribute keys in order. *)
Lemma pending_job_resource_only_witness :
  let e := sampleJobEvent 7 "in_progress" [stepOf "checkout" "in_progress" ""] in
  WorkflowJob.Status (WorkflowJobEvent.WorkflowJob e) <> "completed"
  /\ exists td,
       eventToTraces_ids lowerASCII countingReader (JobEvent e) sampleConfig = (td, None)
       /\ SpanCount td = 0%nat
       /\ map (map fst) (map Resource (ResourceSpansSlice td))
          = [["service.name"; "ci.system"; "ci.actor"; "ci.github.job"; "ci.github.run_id";
              "ci.github.run_attempt"; "ci.github.runner.name"; "ci.github.workflow";
              "scm.system"; "scm.git.branch"; "scm.git.sha"; "scm.git.repo"]].
Proof.
  cbv zeta.
  assert (Hstatus : "in_progress" <> "completed") by discriminate.
  split; [exact Hstatus |].
  destruct (pending_job_resource_only lowerASCII countingReader
              (sampleJobEvent 7 "in_progress" [stepOf "checkout" "in_progress" ""])
              sampleConfig Hstatus) as (td & Hresult & Hcount & Hresource).
  exists td. rewrite Hresource. repeat split; assumption || reflexivity.
Defined.

(** A run in progress. *)
Lemma pending_run_empty_document_witness :
  let e := sampleRunEvent "in_progress" in
  WorkflowRun.Status (WorkflowRunEvent.WorkflowRun e) <> "completed"
  /\ exists td,
       eventToTraces_ids lowerASCII countingReader (RunEvent e) sampleConfig = (td, None)
       /\ SpanCount td = 0%nat
       /\ map Resource (ResourceSpansSlice td) = [[]].
Proof.
  cbv zeta.
  assert (Hstatus : "in_progress" <> "completed") by discriminate.
  split; [exact Hstatus |].
  exact (pending_run_empty_document lowerASCII countingReader (sampleRunEvent "in_progress")
           sampleConfig Hstatus).
Defined.

(** A completed job and the completed run of run 12345, attempt 1. *)
Lemma trace_id_shared_by_job_and_run_witness :
  let je := sampleJobEvent 7 "completed" [stepOf "build" "completed" "success"] in
  let re := sampleRunEvent "completed" in
  let jobDoc := fst (eventToTraces_ids lowerASCII countingReader (JobEvent je) sampleConfig) in
  let runDoc := fst (eventToTraces_ids lowerASCII countingReader (RunEvent re) sampleConfig) in
  WorkflowJob.RunID (WorkflowJobEvent.WorkflowJob je)
  = WorkflowRun.ID (WorkflowRunEvent.WorkflowRun re)
  /\ WorkflowJob.RunAttempt (WorkflowJobEvent.WorkflowJob je)
     = WorkflowRun.RunAttempt (WorkflowRunEvent.WorkflowRun re)
  /\ Forall (fun span => Span.TraceID span = hash_16 "123451t") (all_spans jobDoc)
  /\ Forall (fun span => Span.TraceID span = hash_16 "123451t") (all_spans runDoc)
  /\ all_spans jobDoc <> []
  /\ all_spans runDoc <> [].
Proof.
  cbv zeta. split; [reflexivity |]. split; [reflexivity |].
  destruct (trace_id_shared_by_job_and_run lowerASCII countingReader
              (sampleJobEvent 7 "completed" [stepOf "build" "completed" "success"])
              (sampleRunEvent "completed") sampleConfig eq_refl eq_refl)
    as (Hjob & Hrun & Hjob' & Hrun' & _).
  split; [exact Hjob |]. split; [exact Hrun |].
  split; [apply Hjob'; reflexivity | apply Hrun'; reflexivity].
Defined.



(** A payload with both keys, decoded with two different decoders of run
    events. *)
Lemma job_key_takes_precedence_witness :
  let blob := bytes_of_string "{}" in
  let unmarshal decodeRun :=
    UnmarshalTraces lowerASCII ids.generateTraceID ids.generateParentSpanID
      ids.generateJobSpanID countingReader bothKeys decodeSampleJob decodeRun blob
      sampleConfig in
  (exists event,
     bothKeys blob = Decoded event
     /\ is_Some (event !! "workflow_job") /\ is_Some (event !! "workflow_run"))
  /\ unmarshal decodeSampleRun = unmarshal rejectRun
  /\ SpanCount (fst (unmarshal rejectRun)) = 2%nat.
Proof.
  cbv zeta.
  assert (Hjob : is_Some ((<["workflow_job" := bytes_of_string "{}"]>
                             (<["workflow_run" := bytes_of_string "{}"]> ∅)
                           : gmap string (list Z)) !! "workflow_job"))
    by (eexists; vm_compute; reflexivity).
  assert (Hrun : is_Some ((<["workflow_job" := bytes_of_string "{}"]>
                             (<["workflow_run" := bytes_of_string "{}"]> ∅)
                           : gmap string (list Z)) !! "workflow_run"))
    by (eexists; vm_compute; reflexivity).
  split; [eexists; split; [reflexivity | split; [exact Hjob | exact Hrun]] |].
  destruct (job_key_takes_precedence lowerASCII ids.generateTraceID ids.generateParentSpanID
              ids.generateJobSpanID countingReader bothKeys decodeSampleJob
              decodeSampleRun rejectRun (bytes_of_string "{}") sampleConfig _
              eq_refl Hjob Hrun) as [_ Hsame].
  split; [exact Hsame | vm_compute; reflexivity].
Defined.

(** * Further properties of the receiver *)

(** ** Strings and slices *)

Lemma substring_all s : String.substring 0 (String.length s) s = s.
Proof. induction s as [| c s IH]; [reflexivity |]. cbn. rewrite IH. reflexivity. Qed.

Lemma append_cons_string c (s1 s2 : string) :
  (String c s1 ++ s2)%string = String c (s1 ++ s2)%string.
Proof. reflexivity. Qed.

Lemma length_append_string (s1 s2 : string) :
  String.length (s1 ++ s2)%string = (String.length s1 + String.length s2)%nat.
Proof.
  induction s1 as [| c s1 IH]; [reflexivity |].
  rewrite append_cons_string. cbn [String.length Nat.add]. rewrite IH. reflexivity.
Qed.

(** Slicing off a prefix leaves the rest. *)
Lemma substring_after_prefix (prefix rest : string) :
  String.substring (String.length prefix)
    (String.length (prefix ++ rest)%string - String.length prefix) (prefix ++ rest)%string
  = rest.
Proof.
  induction prefix as [| c prefix IH].
  - change (String.append "" rest) with rest. cbn [String.length].
    rewrite Nat.sub_0_r. apply substring_all.
  - rewrite append_cons_string. cbn [String.length String.substring Nat.sub]. exact IH.
Qed.

(** A string that has [n] characters is its first [n] characters followed by
    the slice from [n]. *)
Lemma split_at n : forall s,
  (n <= String.length s)%nat ->
  exists prefix,
    String.length prefix = n
    /\ s = (prefix ++ String.substring n (String.length s - n) s)%string.
Proof.
  induction n as [| n IH]; intros s Hlen.
  - exists ""%string. rewrite Nat.sub_0_r, substring_all. split; reflexivity.
  - destruct s as [| c s]; [cbn in Hlen; lia |].
    destruct (IH s) as (prefix & Hp & Hs); [cbn in Hlen; lia |].
    exists (String c prefix). split; [cbn; rewrite Hp; reflexivity |].
    rewrite append_cons_string. cbn [String.length String.substring Nat.sub].
    rewrite <- Hs. reflexivity.
Qed.

Lemma str_from_Ret n s :
  (n <= String.length s)%nat ->
  str_from n s = Ret (String.substring n (String.length s - n) s).
Proof.
  intros H. unfold str_from.
  destruct (Nat.leb_spec n (String.length s)); [reflexivity | lia].
Qed.

Lemma str_from_Panic n s :
  (String.length s < n)%nat -> str_from n s = Panic "slice bounds out of range".
Proof.
  intros H. unfold str_from.
  destruct (Nat.leb_spec n (String.length s)); [lia | reflexivity].
Qed.

Lemma bytes_of_string_inj s1 : forall s2,
  bytes_of_string s1 = bytes_of_string s2 -> s1 = s2.
Proof.
  unfold bytes_of_string.
  induction s1 as [| c1 s1 IH]; intros [| c2 s2] H; cbn in H; try discriminate H.
  - reflexivity.
  - injection H as Hc Hs. f_equal; [| apply IH, Hs].
    apply N2Z.inj in Hc.
    rewrite <- (ascii_N_embedding c1), <- (ascii_N_embedding c2), Hc. reflexivity.
Qed.

(** [hmac.Equal] holds exactly for equal byte sequences. *)
Lemma hmac_Equal_eq mac1 : forall mac2, hmac.Equal mac1 mac2 = true <-> mac1 = mac2.
Proof.
  induction mac1 as [| x mac1 IH]; intros [| y mac2]; cbn; split; intros H;
    try discriminate H; try reflexivity.
  - apply andb_true_iff in H as [Hxy Hrest].
    apply Z.eqb_eq in Hxy. apply IH in Hrest. congruence.
  - injection H as -> ->. rewrite Z.eqb_refl. cbn. apply IH. reflexivity.
Qed.

(** ** The two verifiers *)

(** A verifier that slices off [n] characters and compares the rest with
    [expected] accepts exactly the headers made of [n] characters followed
    by [expected]. *)
Lemma sliced_signature_accepted (n : nat) (expected signatureHeader : string) :
  (receivedSig ← str_from n signatureHeader;
   Ret (hmac.Equal (bytes_of_string expected) (bytes_of_string receivedSig)))
  = Ret true
  <-> exists prefix,
        String.length prefix = n /\ signatureHeader = (prefix ++ expected)%string.
Proof.
  split.
  - intros H.
    destruct (Nat.le_gt_cases n (String.length signatureHeader)) as [Hle | Hgt].
    + rewrite (str_from_Ret _ _ Hle) in H. cbn in H. injection H as H.
      apply hmac_Equal_eq, bytes_of_string_inj in H.
      destruct (split_at n signatureHeader Hle) as (prefix & Hp & Hs).
      exists prefix. rewrite H. split; assumption.
    + rewrite (str_from_Panic _ _ Hgt) in H. discriminate H.
  - intros (prefix & Hp & ->).
    rewrite str_from_Ret by (rewrite length_append_string; lia).
    subst n. rewrite substring_after_prefix. cbn.
    f_equal. apply hmac_Equal_eq. reflexivity.
Qed.

(** X1: the SHA-256 verifier returns true exactly for a header made of seven
    characters followed by the hexadecimal HMAC-SHA256 of the body under the
    secret; the seven characters themselves are not looked at. *)
Theorem sha256_signature_accepted_iff (secret signatureHeader : string) (body : list Z) :
  validateSignatureSHA256 secret signatureHeader body = Ret true
  <-> exists prefix,
        String.length prefix = 7%nat
        /\ signatureHeader = (prefix ++ expectedSHA256 secret body)%string.
Proof.
  rewrite <- sliced_signature_accepted. unfold validateSignatureSHA256, expectedSHA256.
  destruct (String.eqb_spec signatureHeader "") as [-> | Hne].
  - cbn. split; discriminate.
  - cbn [orb].
    destruct (Nat.ltb_spec (String.length signatureHeader) 7) as [Hlt | Hge];
      [| reflexivity].
    rewrite (str_from_Panic _ _ Hlt). cbn. split; discriminate.
Qed.

(** The three cases of the SHA-1 verifier, by the length of the header. *)
Lemma validateSignatureSHA1_cases (secret signatureHeader : string) (body : list Z) :
  (signatureHeader = ""
   /\ validateSignatureSHA1 secret signatureHeader body = Ret false)
  \/ ((0 < String.length signatureHeader < 5)%nat
      /\ validateSignatureSHA1 secret signatureHeader body
         = Panic "slice bounds out of range")
  \/ ((5 <= String.length signatureHeader)%nat
      /\ exists ok, validateSignatureSHA1 secret signatureHeader body = Ret ok).
Proof.
  unfold validateSignatureSHA1.
  destruct (String.eqb_spec signatureHeader "") as [-> | Hne]; [left; split; reflexivity |].
  assert (Hpos : (0 < String.length signatureHeader)%nat).
  { destruct signatureHeader; [contradiction | cbn; lia]. }
  right. destruct (Nat.le_gt_cases 5 (String.length signatureHeader)) as [Hle | Hgt].
  - right. split; [exact Hle |]. rewrite (str_from_Ret _ _ Hle). eexists. reflexivity.
  - left. split; [lia |]. rewrite (str_from_Panic _ _ Hgt). reflexivity.
Qed.

(** X2: the SHA-1 verifier returns true exactly for a header made of five
    characters followed by the hexadecimal HMAC-SHA1 of the body under the
    secret, and it panics exactly for a header of one to four characters. *)
Theorem sha1_signature_outcomes (secret signatureHeader : string) (body : list Z) :
  (validateSignatureSHA1 secret signatureHeader body = Ret true
   <-> exists prefix,
         String.length prefix = 5%nat
         /\ signatureHeader = (prefix ++ expectedSHA1 secret body)%string)
  /\ ((exists msg, validateSignatureSHA1 secret signatureHeader body = Panic msg)
      <-> (0 < String.length signatureHeader < 5)%nat).
Proof.
  split.
  - rewrite <- sliced_signature_accepted. unfold validateSignatureSHA1, expectedSHA1.
    destruct (String.eqb_spec signatureHeader "") as [-> | Hne]; [| reflexivity].
    cbn. split; discriminate.
  - destruct (validateSignatureSHA1_cases secret signatureHeader body)
      as [[-> H] | [[Hlen H] | [Hlen [ok H]]]]; rewrite H.
    + cbn. split; [intros [msg Hp]; discriminate Hp | lia].
    + split; [intros _; exact Hlen | intros _; eexists; reflexivity].
    + split; [intros [msg Hp]; discriminate Hp | lia].
Qed.

(** ** The span identifiers *)

Lemma hash_8_16_size text : length (hash_8_16 text) = 8%nat /\ Forall is_byte (hash_8_16 text).
Proof.
  split; [reflexivity |].
  unfold hash_8_16. apply Forall_firstn_skipn, Sum256_bytes.
Qed.

(** X3: [generateParentSpanID] never returns an error; its result is bytes 8
    to 16 of the SHA-256 hash of the decimal run id, the decimal attempt and
    "s": eight values, each a byte. *)
Theorem parent_span_id_derivation (runID runAttempt : Z) :
  let spanID := hash_8_16 (fmt_d runID ++ fmt_d runAttempt ++ "s")%string in
  ids.generateParentSpanID runID runAttempt = (spanID, None)
  /\ length spanID = 8%nat
  /\ Forall is_byte spanID.
Proof.
  cbv zeta. split; [apply generateParentSpanID_eq | apply hash_8_16_size].
Qed.

(** X4: [generateJobSpanID] never returns an error; its result is bytes 8 to
    16 of the SHA-256 hash of its first argument in decimal, the attempt in
    decimal and the job name: eight values, each a byte. *)
Theorem job_span_id_derivation (runID runAttempt : Z) (job : string) :
  let spanID := hash_8_16 (fmt_d runID ++ fmt_d runAttempt ++ job)%string in
  ids.generateJobSpanID runID runAttempt job = (spanID, None)
  /\ length spanID = 8%nat
  /\ Forall is_byte spanID.
Proof.
  cbv zeta. split; [apply generateJobSpanID_eq | apply hash_8_16_size].
Qed.

(** ** The spans of a document *)

Section Spans.
Variable strings_ToLower : string -> string.
Variable rand_Reader : nat -> list Z.

(** [processSteps] appends the span of each step, in order; the identifier
    of the [i]-th is the [i]-th random read from the starting position. *)
Lemma processSteps_in_order steps : forall scopeSpans job traceID parentSpanID n,
  exists added,
    Spans (fst (processSteps rand_Reader scopeSpans steps job traceID parentSpanID n))
    = Spans scopeSpans ++ added
    /\ Forall2 (stepSpanOf traceID parentSpanID) steps added
    /\ map Span.SpanID added = map rand_Reader (seq n (length steps)).
Proof.
  induction steps as [| step rest IH]; intros scopeSpans job traceID parentSpanID n.
  - exists []. cbn. rewrite app_nil_r. repeat split. constructor.
  - cbn [processSteps]. unfold createSpan, generateSpanID.
    match goal with
    | |- context [processSteps _ ?ss rest job traceID parentSpanID ?m] =>
        destruct (IH ss job traceID parentSpanID m) as (added & Heq & Hall & Hids)
    end.
    eexists (_ :: added). rewrite Heq. cbn [Spans].
    rewrite <- app_assoc. split; [reflexivity |].
    split.
    + constructor; [| exact Hall].
      unfold stepSpanOf, codeOfConclusion.
      destruct (String.eqb (Step.Conclusion step) "success");
        [| destruct (String.eqb (Step.Conclusion step) "failure")];
        repeat split; reflexivity.
    + cbn [length seq map]. rewrite Hids. f_equal.
      destruct (String.eqb (Step.Conclusion step) "success");
        [| destruct (String.eqb (Step.Conclusion step) "failure")]; reflexivity.
Qed.

(** The job span carries no status message. *)
Lemma createParentSpan_message gP gJ scopeSpans steps job traceID :
  Forall (fun span => Span.Message span = "")
    (skipn (length (Spans scopeSpans))
       (Spans (fst (createParentSpan gP gJ scopeSpans steps job traceID)))).
Proof.
  unfold createParentSpan.
  destruct (gP _ _) as [parentSpanID e1]. destruct (gJ _ _ _) as [jobSpanID e2].
  destruct (stepsLoop steps true false) as [allSuccessful anyFailure].
  cbn [fst Spans]. rewrite drop_app_length.
  destruct steps, anyFailure, allSuccessful; repeat constructor.
Qed.

(** The document of a completed job, with the job span of [createParentSpan]
    and the step spans of [processSteps]. *)
Lemma completed_job_spans (e : WorkflowJobEvent.t) (config : Config.t) :
  let job := WorkflowJobEvent.WorkflowJob e in
  let traceID := traceID_of (WorkflowJob.RunID job) (WorkflowJob.RunAttempt job) in
  WorkflowJob.Status job = "completed" ->
  exists jobSpan stepSpans,
    all_spans (fst (eventToTraces_ids strings_ToLower rand_Reader (JobEvent e) config))
    = jobSpan :: stepSpans
    /\ createParentSpan ids.generateParentSpanID ids.generateJobSpanID
         {| Spans := [] |} (WorkflowJob.Steps job) job traceID
       = ({| Spans := [jobSpan] |}, Span.SpanID jobSpan)
    /\ Forall2 (stepSpanOf traceID (Span.SpanID jobSpan)) (WorkflowJob.Steps job) stepSpans
    /\ map Span.SpanID stepSpans
       = map rand_Reader (seq 0 (length (WorkflowJob.Steps job))).
Proof.
  intros job traceID Hstatus.
  unfold eventToTraces_ids, eventToTraces.
  subst job traceID. rewrite generateTraceID_eq.
  rewrite Hstatus. cbn [String.eqb Ascii.eqb Bool.eqb].
  set (job := WorkflowJobEvent.WorkflowJob e) in *.
  set (traceID := traceID_of _ _).
  destruct (createParentSpan_fields ids.generateParentSpanID ids.generateJobSpanID
              {| Spans := [] |} (WorkflowJob.Steps job) job traceID)
    as (jobSpan & Hparent & _).
  cbn [Spans app] in Hparent. rewrite Hparent.
  destruct (processSteps_in_order (WorkflowJob.Steps job)
              {| Spans := [jobSpan] |} job traceID (Span.SpanID jobSpan) 0)
    as (added & Hspans & Hall & Hids).
  destruct (processSteps _ _ _ _ _ _ _) as [[spans] n].
  cbn [Spans app fst] in Hspans. subst spans.
  exists jobSpan, added. cbn [fst]. rewrite all_spans_one_scope.
  repeat split; assumption || reflexivity.
Qed.

(** X5: a completed job yields, after the job span, exactly one span per step
    in the order of the steps. Each has the trace identifier of the run, the
    job span as parent, the name, times and conclusion (as status message) of
    its step, kind server, and status Ok for "success", Error for "failure",
    Unset otherwise; its identifier is the next random read. *)
Theorem step_spans_follow_steps (e : WorkflowJobEvent.t) (config : Config.t) :
  let job := WorkflowJobEvent.WorkflowJob e in
  let steps := WorkflowJob.Steps job in
  let traceID := traceID_of (WorkflowJob.RunID job) (WorkflowJob.RunAttempt job) in
  WorkflowJob.Status job = "completed" ->
  exists jobSpan stepSpans,
    all_spans (fst (eventToTraces_ids strings_ToLower rand_Reader (JobEvent e) config))
    = jobSpan :: stepSpans
    /\ Forall2 (stepSpanOf traceID (Span.SpanID jobSpan)) steps stepSpans
    /\ map Span.SpanID stepSpans = map rand_Reader (seq 0 (length steps)).
Proof.
  intros job steps traceID Hstatus.
  destruct (completed_job_spans e config Hstatus)
    as (jobSpan & stepSpans & Hdoc & _ & Hall & Hids).
  exists jobSpan, stepSpans. repeat split; assumption.
Qed.

(** X6: the job span of a completed job with steps runs from the start of
    the first step to the completion of the last one, whatever the times of
    the job; it has the name of the job, kind server and no status message. *)
Theorem job_span_covers_steps (e : WorkflowJobEvent.t) (config : Config.t)
    (first : Step.t) (rest : list Step.t) :
  let job := WorkflowJobEvent.WorkflowJob e in
  WorkflowJob.Status job = "completed" ->
  WorkflowJob.Steps job = first :: rest ->
  exists jobSpan stepSpans,
    all_spans (fst (eventToTraces_ids strings_ToLower rand_Reader (JobEvent e) config))
    = jobSpan :: stepSpans
    /\ Span.StartTimestamp jobSpan = NewTimestampFromTime (Step.StartedAt first)
    /\ Span.EndTimestamp jobSpan
       = NewTimestampFromTime (Step.CompletedAt (List.last rest first))
    /\ Span.Name jobSpan = WorkflowJob.Name job
    /\ Span.Kind jobSpan = SpanKindServer
    /\ Span.Message jobSpan = "".
Proof.
  intros job Hstatus Hsteps.
  destruct (completed_job_spans e config Hstatus)
    as (jobSpan & stepSpans & Hdoc & Hparent & _).
  fold job in Hparent.
  set (traceID := traceID_of _ _) in Hparent.
  destruct (createParentSpan_fields ids.generateParentSpanID ids.generateJobSpanID
              {| Spans := [] |} (WorkflowJob.Steps job) job traceID)
    as (span & Hspan & _ & _ & _ & Hname & Hkind & Htimes & _).
  pose proof (createParentSpan_message ids.generateParentSpanID ids.generateJobSpanID
                {| Spans := [] |} (WorkflowJob.Steps job) job traceID) as Hmessage.
  rewrite Hparent in Hspan, Hmessage. injection Hspan as Hspan _. subst span.
  cbn in Hmessage. inversion Hmessage as [| ? ? Hm _]; subst.
  rewrite Hsteps in Htimes. injection Htimes as Hstart Hend.
  exists jobSpan, stepSpans.
  split; [exact Hdoc |]. split; [exact Hstart |].
  split; [| repeat split; assumption].
  rewrite Hend. f_equal. f_equal. destruct rest; reflexivity.
Qed.
End Spans.

(** ** What a conversion returns *)

(** A span of a step is determined by the step, the trace and the parent, up
    to its own identifier. *)
Lemma stepSpanOf_unique traceID parentSpanID steps : forall spans spans',
  Forall2 (stepSpanOf traceID parentSpanID) steps spans ->
  Forall2 (stepSpanOf traceID parentSpanID) steps spans' ->
  map (Span.SetSpanID SpanID_zero) spans = map (Span.SetSpanID SpanID_zero) spans'.
Proof.
  induction steps as [| step rest IH]; intros spans spans' H H';
    inversion H as [| ? s ? l Hs Hl]; inversion H' as [| ? s' ? l' Hs' Hl']; subst.
  - reflexivity.
  - cbn [map]. f_equal; [| apply IH; assumption].
    destruct Hs as (T & P & N & K & S & E & C & M).
    destruct Hs' as (T' & P' & N' & K' & S' & E' & C' & M').
    destruct s, s'; cbn in *. unfold Span.SetSpanID. cbn. congruence.
Qed.

Section Outcomes.
Variable strings_ToLower : string -> string.
Variable rand_Reader : nat -> list Z.

(** X7: the conversion of a job event or a run event never returns an error
    and returns one resource entry. A completed job yields one span more than
    it has steps and a completed run yields one span; any other status yields
    none. Any other kind of event yields the zero document and the error
    "unknown event type, dropping payload". *)
Theorem conversion_outcome (event : Event) (config : Config.t) :
  let result := eventToTraces_ids strings_ToLower rand_Reader event config in
  match event with
  | JobEvent e =>
      let job := WorkflowJobEvent.WorkflowJob e in
      exists td,
        result = (td, None)
        /\ length (ResourceSpansSlice td) = 1%nat
        /\ SpanCount td
           = if String.eqb (WorkflowJob.Status job) "completed"
             then S (length (WorkflowJob.Steps job)) else 0%nat
  | RunEvent e =>
      let run := WorkflowRunEvent.WorkflowRun e in
      exists td,
        result = (td, None)
        /\ length (ResourceSpansSlice td) = 1%nat
        /\ SpanCount td
           = if String.eqb (WorkflowRun.Status run) "completed" then 1%nat else 0%nat
  | OtherEvent =>
      result = (Traces_zero, Some (errorString "unknown event type, dropping payload"))
  end.
Proof.
  destruct event as [e | e |]; cbv zeta; [| | reflexivity].
  - destruct (String.eqb_spec (WorkflowJob.Status (WorkflowJobEvent.WorkflowJob e)) "completed")
      as [Hs | Hs].
    + destruct (completed_job_document strings_ToLower rand_Reader e config Hs)
        as (jobSpan & stepSpans & Hdoc & _ & Hlen & _).
      eexists. split; [exact Hdoc |]. split; [reflexivity |].
      unfold SpanCount. rewrite all_spans_one_scope. cbn. rewrite Hlen. reflexivity.
    + eexists. split; [apply pending_job_document, Hs |]. split; reflexivity.
  - destruct (String.eqb_spec (WorkflowRun.Status (WorkflowRunEvent.WorkflowRun e)) "completed")
      as [Hs | Hs].
    + destruct (completed_run_document strings_ToLower rand_Reader e config Hs)
        as (rootSpan & Hdoc & _).
      eexists. split; [exact Hdoc |]. split; reflexivity.
    + eexists. split; [apply pending_run_document, Hs |]. split; reflexivity.
Qed.

(** X8: whatever the status of the job, the resource of a job event's
    document carries the twelve job attributes, in this order. *)
Theorem job_resource_attributes (e : WorkflowJobEvent.t) (config : Config.t) :
  let job := WorkflowJobEvent.WorkflowJob e in
  let repo := WorkflowJobEvent.Repository e in
  map Resource
    (ResourceSpansSlice
       (fst (eventToTraces_ids strings_ToLower rand_Reader (JobEvent e) config)))
  = [[("service.name",
        ValueStr (generateServiceName strings_ToLower config (Repository.FullName repo)));
      ("ci.system", ValueStr "github");
      ("ci.actor", ValueStr (Owner.Login (Repository.Owner repo)));
      ("ci.github.job", ValueStr (WorkflowJob.Name job));
      ("ci.github.run_id", ValueInt (WorkflowJob.RunID job));
      ("ci.github.run_attempt", ValueInt (WorkflowJob.RunAttempt job));
      ("ci.github.runner.name", ValueStr (WorkflowJob.RunnerName job));
      ("ci.github.workflow", ValueStr (WorkflowJob.WorkflowName job));
      ("scm.system", ValueStr "git");
      ("scm.git.branch", ValueStr (WorkflowJob.HeadBranch job));
      ("scm.git.sha", ValueStr (WorkflowJob.HeadSha job));
      ("scm.git.repo", ValueStr (Repository.FullName repo))]].
Proof.
  cbv zeta.
  destruct (String.eqb_spec (WorkflowJob.Status (WorkflowJobEvent.WorkflowJob e)) "completed")
    as [Hs | Hs].
  - destruct (completed_job_document strings_ToLower rand_Reader e config Hs)
      as (jobSpan & stepSpans & Hdoc & _).
    rewrite Hdoc. reflexivity.
  - rewrite (pending_job_document strings_ToLower rand_Reader e config Hs). reflexivity.
Qed.

(** X9: the resource of a completed run's document carries the eleven run
    attributes, in this order; the actor is the owner of the repository
    nested in the run, the repository name that of the event. *)
Theorem run_resource_attributes (e : WorkflowRunEvent.t) (config : Config.t) :
  let run := WorkflowRunEvent.WorkflowRun e in
  let repo := WorkflowRunEvent.Repository e in
  WorkflowRun.Status run = "completed" ->
  map Resource
    (ResourceSpansSlice
       (fst (eventToTraces_ids strings_ToLower rand_Reader (RunEvent e) config)))
  = [[("service.name",
        ValueStr (generateServiceName strings_ToLower config (Repository.FullName repo)));
      ("ci.system", ValueStr "github");
      ("ci.actor", ValueStr (Owner.Login (Repository.Owner (WorkflowRun.Repository run))));
      ("ci.github.run_id", ValueInt (WorkflowRun.ID run));
      ("ci.github.run_attempt", ValueInt (WorkflowRun.RunAttempt run));
      ("ci.github.workflow", ValueStr (WorkflowRun.Name run));
      ("ci.github.workflow_path", ValueStr (WorkflowRun.Path run));
      ("scm.system", ValueStr "git");
      ("scm.git.branch", ValueStr (WorkflowRun.HeadBranch run));
      ("scm.git.sha", ValueStr (WorkflowRun.HeadSha run));
      ("scm.git.repo", ValueStr (Repository.FullName repo))]].
Proof.
  intros run repo Hs.
  destruct (completed_run_document strings_ToLower rand_Reader e config Hs)
    as (rootSpan & Hdoc & _).
  rewrite Hdoc. reflexivity.
Qed.

(** X10: a completed run yields exactly one span, in a second scope after the
    empty scope that [eventToTraces] appended. The span has the trace
    identifier of the run, the run-parent identifier as its own, no parent,
    the name of the run, kind server, the time range from RunStartedAt to
    UpdatedAt, the conclusion as status message, and status Ok for "success",
    Error for "failure", Unset otherwise. *)
Theorem run_root_span (e : WorkflowRunEvent.t) (config : Config.t) :
  let run := WorkflowRunEvent.WorkflowRun e in
  let td := fst (eventToTraces_ids strings_ToLower rand_Reader (RunEvent e) config) in
  WorkflowRun.Status run = "completed" ->
  exists rootSpan,
    map (fun rs => map Spans (ScopeSpansSlice rs)) (ResourceSpansSlice td)
    = [[[]; [rootSpan]]]
    /\ all_spans td = [rootSpan]
    /\ Span.TraceID rootSpan = traceID_of (WorkflowRun.ID run) (WorkflowRun.RunAttempt run)
    /\ Span.SpanID rootSpan
       = hash_8_16 (fmt_d (WorkflowRun.ID run) ++ fmt_d (WorkflowRun.RunAttempt run) ++ "s")%string
    /\ Span.ParentSpanID rootSpan = SpanID_zero
    /\ Span.Name rootSpan = WorkflowRun.Name run
    /\ Span.Kind rootSpan = SpanKindServer
    /\ Span.StartTimestamp rootSpan = NewTimestampFromTime (WorkflowRun.RunStartedAt run)
    /\ Span.EndTimestamp rootSpan = NewTimestampFromTime (WorkflowRun.UpdatedAt run)
    /\ Span.Code rootSpan = codeOfConclusion (WorkflowRun.Conclusion run)
    /\ Span.Message rootSpan = WorkflowRun.Conclusion run.
Proof.
  intros run td Hstatus. subst td.
  unfold eventToTraces_ids, eventToTraces, createRootSpan.
  fold run. rewrite generateTraceID_eq, generateParentSpanID_eq.
  rewrite Hstatus. cbn [String.eqb Ascii.eqb Bool.eqb].
  eexists. split; [reflexivity |]. split; [reflexivity |].
  unfold codeOfConclusion.
  destruct (String.eqb (WorkflowRun.Conclusion run) "success");
    [| destruct (String.eqb (WorkflowRun.Conclusion run) "failure")];
    repeat split; reflexivity.
Qed.

(** X11: the job span of a completed job event names as its parent the
    identifier that the root span of a completed run event with the same run
    id and attempt carries as its own, and both are in the same trace. *)
Theorem job_span_parent_is_run_root
    (je : WorkflowJobEvent.t) (re : WorkflowRunEvent.t) (config : Config.t) :
  let job := WorkflowJobEvent.WorkflowJob je in
  let run := WorkflowRunEvent.WorkflowRun re in
  WorkflowJob.Status job = "completed" ->
  WorkflowRun.Status run = "completed" ->
  WorkflowJob.RunID job = WorkflowRun.ID run ->
  WorkflowJob.RunAttempt job = WorkflowRun.RunAttempt run ->
  exists jobSpan stepSpans rootSpan,
    all_spans (fst (eventToTraces_ids strings_ToLower rand_Reader (JobEvent je) config))
    = jobSpan :: stepSpans
    /\ all_spans (fst (eventToTraces_ids strings_ToLower rand_Reader (RunEvent re) config))
       = [rootSpan]
    /\ Span.ParentSpanID jobSpan = Span.SpanID rootSpan
    /\ Span.TraceID jobSpan = Span.TraceID rootSpan
    /\ Span.ParentSpanID rootSpan = SpanID_zero.
Proof.
  intros job run Hjob Hrun Hid Hattempt.
  destruct (completed_job_document strings_ToLower rand_Reader je config Hjob)
    as (jobSpan & stepSpans & Hjdoc & Hparent & _).
  fold job in Hparent.
  destruct (createParentSpan_fields ids.generateParentSpanID ids.generateJobSpanID
              {| Spans := [] |} (WorkflowJob.Steps job) job
              (traceID_of (WorkflowJob.RunID job) (WorkflowJob.RunAttempt job)))
    as (span & Hspan & Htrace & Hpid & _).
  rewrite Hparent in Hspan. injection Hspan as Hspan _. subst span.
  destruct (completed_run_document strings_ToLower rand_Reader re config Hrun)
    as (rootSpan & Hrdoc & Hrtrace & Hrid & Hrparent).
  fold run in Hrtrace, Hrid.
  exists jobSpan, stepSpans, rootSpan. rewrite Hjdoc, Hrdoc. cbn [fst].
  split; [apply all_spans_one_scope |]. split; [reflexivity |].
  split; [rewrite Hpid, Hrid, Hid, Hattempt; reflexivity |].
  split; [rewrite Htrace, Hrtrace, Hid, Hattempt; reflexivity | exact Hrparent].
Qed.

(** X12: converting the same job event again, with other random reads, gives
    the same error result, the same resource, the same job span and the same
    step spans up to their identifiers; a run event's document does not
    depend on the random reads at all. *)
Theorem redelivery_differs_in_step_ids (rand_Reader' : nat -> list Z)
    (e : WorkflowJobEvent.t) (re : WorkflowRunEvent.t) (config : Config.t) :
  let first := eventToTraces_ids strings_ToLower rand_Reader (JobEvent e) config in
  let second := eventToTraces_ids strings_ToLower rand_Reader' (JobEvent e) config in
  snd first = snd second
  /\ map Resource (ResourceSpansSlice (fst first))
     = map Resource (ResourceSpansSlice (fst second))
  /\ head (all_spans (fst first)) = head (all_spans (fst second))
  /\ map (Span.SetSpanID SpanID_zero) (all_spans (fst first))
     = map (Span.SetSpanID SpanID_zero) (all_spans (fst second))
  /\ eventToTraces_ids strings_ToLower rand_Reader (RunEvent re) config
     = eventToTraces_ids strings_ToLower rand_Reader' (RunEvent re) config.
Proof.
  cbv zeta.
  destruct (String.eqb_spec (WorkflowJob.Status (WorkflowJobEvent.WorkflowJob e)) "completed")
    as [Hs | Hs].
  - destruct (completed_job_document strings_ToLower rand_Reader e config Hs)
      as (jobSpan & stepSpans & Hdoc & _).
    destruct (completed_job_document strings_ToLower rand_Reader' e config Hs)
      as (jobSpan' & stepSpans' & Hdoc' & _).
    destruct (completed_job_spans strings_ToLower rand_Reader e config Hs)
      as (jobSpan1 & stepSpans1 & Hspans & Hparent & Hall & _).
    destruct (completed_job_spans strings_ToLower rand_Reader' e config Hs)
      as (jobSpan2 & stepSpans2 & Hspans' & Hparent' & Hall' & _).
    rewrite Hparent in Hparent'. injection Hparent' as Hsame. subst jobSpan2.
    rewrite Hspans, Hspans'. rewrite Hdoc, Hdoc'. cbn [fst snd head map].
    repeat split; try reflexivity.
    f_equal. eapply stepSpanOf_unique; eassumption.
  - rewrite (pending_job_document strings_ToLower rand_Reader e config Hs).
    rewrite (pending_job_document strings_ToLower rand_Reader' e config Hs).
    repeat split; reflexivity.
Qed.
End Outcomes.

(** ** The handler *)

Section Requests.
Variable strings_ToLower : string -> string.
Variable rand_Reader : nat -> list Z.
Variable json_Unmarshal_map : list Z -> decoded (gmap string (list Z)).
Variable json_Unmarshal_job : list Z -> decoded WorkflowJobEvent.t.
Variable json_Unmarshal_run : list Z -> decoded WorkflowRunEvent.t.
Variable ConsumeTraces : Traces -> option error.

(** The handler once agent, path and body have passed. *)
Lemma ServeHTTP_guarded (config : Config.t) (r : Request.t) (slurp : list Z) :
  strings_HasPrefix (Header_Get (Request.Header r) "User-Agent") "GitHub-Hookshot" = true ->
  Request.URL_Path r = Config.Path config ->
  Request.Body r = (slurp, None) ->
  ServeHTTP_ids strings_ToLower rand_Reader json_Unmarshal_map json_Unmarshal_job
    json_Unmarshal_run ConsumeTraces config r
  = (rejected ← (if negb (String.eqb (Config.Secret config) "")
                 then signatureMismatch config r slurp else Ret false);
     if (rejected : bool) then Ret (http_Error "Unauthorized" StatusUnauthorized)
     else Ret (match UnmarshalTraces_ids strings_ToLower rand_Reader json_Unmarshal_map
                       json_Unmarshal_job json_Unmarshal_run slurp config with
               | (_, Some err) => http_Error_of err StatusBadRequest
               | (td, None) =>
                   match ConsumeTraces td with
                   | Some _ => http_Error "Failed to process traces" StatusInternalServerError
                   | None => WriteHeader StatusAccepted
                   end
               end)).
Proof.
  intros Hagent Hpath Hbody. unfold ServeHTTP_ids, ServeHTTP.
  rewrite Hagent, Hpath, String.eqb_refl, Hbody. reflexivity.
Qed.

(** The signature check, by the outcome of the SHA-256 verifier. *)
Lemma signatureMismatch_cases (config : Config.t) (r : Request.t) (slurp : list Z) :
  let sha256Header := Header_Get (Request.Header r) "X-Hub-Signature-256" in
  let sha1Header := Header_Get (Request.Header r) "X-Hub-Signature" in
  exists ok256,
    validateSignatureSHA256 (Config.Secret config) sha256Header slurp = Ret ok256
    /\ signatureMismatch config r slurp
       = if negb (String.eqb sha256Header "") && negb ok256 then Ret true
         else if String.eqb sha1Header "" then Ret false
         else (ok ← validateSignatureSHA1 (Config.Secret config) sha1Header slurp;
               Ret (negb ok)).
Proof.
  intros sha256Header sha1Header.
  destruct (validateSignatureSHA256_total (Config.Secret config) sha256Header slurp)
    as [ok256 H256].
  exists ok256. split; [exact H256 |].
  unfold signatureMismatch. fold sha256Header sha1Header. rewrite H256.
  destruct (String.eqb sha256Header ""), ok256, (String.eqb sha1Header ""); reflexivity.
Qed.

(** X13: the guards of the handler come in this order: another user agent is
    answered 403 whatever the rest of the request; then another path is
    answered 404; then a body that cannot be read is answered 500. None of
    the three looks at the signature headers. *)
Theorem guards_in_order (config : Config.t) (r : Request.t) :
  let serve :=
    ServeHTTP_ids strings_ToLower rand_Reader json_Unmarshal_map json_Unmarshal_job
      json_Unmarshal_run ConsumeTraces config in
  let agentOk :=
    strings_HasPrefix (Header_Get (Request.Header r) "User-Agent") "GitHub-Hookshot" in
  (agentOk = false -> serve r = Ret (http_Error "Forbidden" StatusForbidden))
  /\ (agentOk = true -> Request.URL_Path r <> Config.Path config ->
      serve r = Ret (http_Error "Not found" StatusNotFound))
  /\ (agentOk = true -> Request.URL_Path r = Config.Path config ->
      snd (Request.Body r) <> None ->
      serve r = Ret (http_Error "Failed to read request body" StatusInternalServerError)).
Proof.
  cbv zeta. unfold ServeHTTP_ids, ServeHTTP. split; [| split].
  - intros ->. reflexivity.
  - intros -> Hpath. apply String.eqb_neq in Hpath. rewrite Hpath. reflexivity.
  - intros -> -> Hbody. rewrite String.eqb_refl.
    destruct (Request.Body r) as [slurp [err |]]; [reflexivity | contradiction].
Qed.

(** X14: without a configured secret the signature headers are not looked
    at: whatever they hold, the request is unmarshalled and consumed, and
    the answer is 400 with the unmarshalling error, 500 when the consumer
    fails, 202 otherwise. *)
Theorem no_secret_ignores_signatures (config : Config.t) (r : Request.t) (slurp : list Z) :
  Config.Secret config = "" ->
  strings_HasPrefix (Header_Get (Request.Header r) "User-Agent") "GitHub-Hookshot" = true ->
  Request.URL_Path r = Config.Path config ->
  Request.Body r = (slurp, None) ->
  ServeHTTP_ids strings_ToLower rand_Reader json_Unmarshal_map json_Unmarshal_job
    json_Unmarshal_run ConsumeTraces config r
  = Ret (match UnmarshalTraces_ids strings_ToLower rand_Reader json_Unmarshal_map
                 json_Unmarshal_job json_Unmarshal_run slurp config with
         | (_, Some err) => http_Error_of err StatusBadRequest
         | (td, None) =>
             match ConsumeTraces td with
             | Some _ => http_Error "Failed to process traces" StatusInternalServerError
             | None => WriteHeader StatusAccepted
             end
         end).
Proof.
  intros Hsecret Hagent Hpath Hbody.
  rewrite (ServeHTTP_guarded config r slurp Hagent Hpath Hbody), Hsecret. reflexivity.
Qed.

(** X15: a request that carries neither signature header is not rejected,
    also when a secret is configured: it is unmarshalled and consumed like
    a request whose signature verified. *)
Theorem missing_signatures_pass (config : Config.t) (r : Request.t) (slurp : list Z) :
  Header_Get (Request.Header r) "X-Hub-Signature-256" = "" ->
  Header_Get (Request.Header r) "X-Hub-Signature" = "" ->
  strings_HasPrefix (Header_Get (Request.Header r) "User-Agent") "GitHub-Hookshot" = true ->
  Request.URL_Path r = Config.Path config ->
  Request.Body r = (slurp, None) ->
  ServeHTTP_ids strings_ToLower rand_Reader json_Unmarshal_map json_Unmarshal_job
    json_Unmarshal_run ConsumeTraces config r
  = Ret (match UnmarshalTraces_ids strings_ToLower rand_Reader json_Unmarshal_map
                 json_Unmarshal_job json_Unmarshal_run slurp config with
         | (_, Some err) => http_Error_of err StatusBadRequest
         | (td, None) =>
             match ConsumeTraces td with
             | Some _ => http_Error "Failed to process traces" StatusInternalServerError
             | None => WriteHeader StatusAccepted
             end
         end).
Proof.
  intros H256 H1 Hagent Hpath Hbody.
  rewrite (ServeHTTP_guarded config r slurp Hagent Hpath Hbody).
  destruct (signatureMismatch_cases config r slurp) as (ok256 & _ & Hcheck).
  rewrite Hcheck, H256, H1.
  destruct (negb (String.eqb (Config.Secret config) "")); reflexivity.
Qed.

(** X16: the handler panics exactly when agent, path and body pass, a secret
    is configured, the SHA-256 header is absent or verifies, and the SHA-1
    header has one to four characters. *)
Theorem handler_panics_iff (config : Config.t) (r : Request.t) :
  let secret := Config.Secret config in
  let sha256Header := Header_Get (Request.Header r) "X-Hub-Signature-256" in
  let sha1Header := Header_Get (Request.Header r) "X-Hub-Signature" in
  (exists msg,
     ServeHTTP_ids strings_ToLower rand_Reader json_Unmarshal_map json_Unmarshal_job
       json_Unmarshal_run ConsumeTraces config r = Panic msg)
  <-> strings_HasPrefix (Header_Get (Request.Header r) "User-Agent") "GitHub-Hookshot" = true
      /\ Request.URL_Path r = Config.Path config
      /\ snd (Request.Body r) = None
      /\ secret <> ""
      /\ (sha256Header = ""
          \/ validateSignatureSHA256 secret sha256Header (fst (Request.Body r)) = Ret true)
      /\ (0 < String.length sha1Header < 5)%nat.
Proof.
  intros secret sha256Header sha1Header.
  destruct (strings_HasPrefix (Header_Get (Request.Header r) "User-Agent") "GitHub-Hookshot")
    eqn:Hagent.
  2: { unfold ServeHTTP_ids, ServeHTTP. rewrite Hagent. cbn.
       split; [intros [msg H]; discriminate H | intros [H _]; discriminate H]. }
  destruct (String.eqb_spec (Request.URL_Path r) (Config.Path config)) as [Hpath | Hpath].
  2: { unfold ServeHTTP_ids, ServeHTTP. rewrite Hagent.
       apply String.eqb_neq in Hpath. rewrite Hpath. cbn.
       apply String.eqb_neq in Hpath.
       split; [intros [msg H]; discriminate H | intros (_ & H & _); contradiction]. }
  destruct (Request.Body r) as [slurp [err |]] eqn:Hbody.
  { unfold ServeHTTP_ids, ServeHTTP. rewrite Hagent, Hpath, String.eqb_refl, Hbody. cbn.
    split; [intros [msg H]; discriminate H | intros (_ & _ & H & _); discriminate H]. }
  rewrite (ServeHTTP_guarded config r slurp Hagent Hpath Hbody). cbn [fst snd].
  fold secret.
  destruct (String.eqb_spec secret "") as [Hsecret | Hsecret]; cbn [negb].
  { cbn. split; [intros [msg H]; discriminate H | intros (_ & _ & _ & H & _); contradiction]. }
  destruct (signatureMismatch_cases config r slurp) as (ok256 & H256 & Hcheck).
  fold secret sha256Header sha1Header in H256, Hcheck. rewrite Hcheck, H256.
  destruct (validateSignatureSHA1_cases secret sha1Header slurp)
    as [[H1 Hv] | [[H1 Hv] | [H1 [ok Hv]]]].
  - rewrite H1. rewrite String.eqb_refl.
    destruct (negb (String.eqb sha256Header "") && negb ok256); cbn;
      (split; [intros [msg H]; discriminate H | intros (_ & _ & _ & _ & _ & H); cbn in H; lia]).
  - assert (Hne : String.eqb sha1Header "" = false).
    { apply String.eqb_neq. intros E. rewrite E in H1. cbn in H1. lia. }
    rewrite Hne, Hv.
    destruct (String.eqb_spec sha256Header "") as [E256 | E256]; destruct ok256; cbn.
    + split; [intros _ | intros _; eexists; reflexivity].
      repeat split; try assumption; try reflexivity; try lia. left. exact E256.
    + split; [intros _ | intros _; eexists; reflexivity].
      repeat split; try assumption; try reflexivity; try lia. left. exact E256.
    + split; [intros _ | intros _; eexists; reflexivity].
      repeat split; try assumption; try reflexivity; try lia. right. reflexivity.
    + split; [intros [msg H]; discriminate H |].
      intros (_ & _ & _ & _ & [E | E] & _); [contradiction | discriminate E].
  - assert (Hne : String.eqb sha1Header "" = false).
    { apply String.eqb_neq. intros E. rewrite E in H1. cbn in H1. lia. }
    rewrite Hne, Hv.
    destruct (negb (String.eqb sha256Header "") && negb ok256), ok; cbn;
      (split; [intros [msg H]; discriminate H | intros (_ & _ & _ & _ & _ & H); lia]).
Qed.
End Requests.

Section Acceptance.
Variable strings_ToLower : string -> string.
Variable rand_Reader : nat -> list Z.
Variable json_Unmarshal_map : list Z -> decoded (gmap string (list Z)).
Variable json_Unmarshal_job : list Z -> decoded WorkflowJobEvent.t.
Variable json_Unmarshal_run : list Z -> decoded WorkflowRunEvent.t.
Variable ConsumeTraces : Traces -> option error.

(** The signature check lets a request through exactly when no secret is
    configured or each header is absent or verifies. *)
Lemma signature_check_passes_iff (config : Config.t) (r : Request.t) (slurp : list Z) :
  let secret := Config.Secret config in
  let sha256Header := Header_Get (Request.Header r) "X-Hub-Signature-256" in
  let sha1Header := Header_Get (Request.Header r) "X-Hub-Signature" in
  (if negb (String.eqb secret "") then signatureMismatch config r slurp else Ret false)
  = Ret false
  <-> secret = ""
      \/ ((sha256Header = "" \/ validateSignatureSHA256 secret sha256Header slurp = Ret true)
          /\ (sha1Header = "" \/ validateSignatureSHA1 secret sha1Header slurp = Ret true)).
Proof.
  intros secret sha256Header sha1Header.
  destruct (String.eqb_spec secret "") as [Hsecret | Hsecret]; cbn [negb].
  { split; [intros _; left; exact Hsecret | reflexivity]. }
  destruct (signatureMismatch_cases config r slurp) as (ok256 & H256 & Hcheck).
  fold secret sha256Header sha1Header in H256, Hcheck. rewrite Hcheck, H256.
  destruct (validateSignatureSHA1_cases secret sha1Header slurp)
    as [[H1 Hv] | [[H1 Hv] | [H1 [ok Hv]]]].
  - rewrite H1, String.eqb_refl.
    destruct (String.eqb_spec sha256Header "") as [E256 | E256]; destruct ok256; cbn.
    + split; [intros _; right; split; left; [exact E256 | reflexivity] | reflexivity].
    + split; [intros _; right; split; left; [exact E256 | reflexivity] | reflexivity].
    + split; [intros _; right; split; [right | left]; reflexivity | reflexivity].
    + split; [discriminate |].
      intros [E | [[E | E] _]]; [contradiction | contradiction | discriminate E].
  - assert (Hne : sha1Header <> "").
    { intros E. rewrite E in H1. cbn in H1. lia. }
    rewrite (proj2 (String.eqb_neq _ _) Hne), Hv.
    destruct (negb (String.eqb sha256Header "") && negb ok256); cbn;
      (split; [discriminate |]);
      (intros [E | [_ [E | E]]]; [contradiction | contradiction | discriminate E]).
  - assert (Hne : sha1Header <> "").
    { intros E. rewrite E in H1. cbn in H1. lia. }
    rewrite (proj2 (String.eqb_neq _ _) Hne), Hv.
    destruct (String.eqb_spec sha256Header "") as [E256 | E256]; destruct ok256, ok; cbn;
      (split;
       [ first [ discriminate
               | intros _; right; split;
                 [ first [left; exact E256 | right; reflexivity]
                 | right; reflexivity ] ]
       | first [ reflexivity
               | intros [E | [[E | E] [E' | E']]];
                 first [contradiction | discriminate E | discriminate E'] ] ]).
Qed.

(** X17: the handler answers 202 exactly when the user agent and the path
    match, the body was read, the signature check passes (no secret is
    configured, or each signature header is absent or verifies), the payload
    unmarshals without error and the consumer accepts the document. *)
Theorem accepted_iff (config : Config.t) (r : Request.t) :
  let secret := Config.Secret config in
  let sha256Header := Header_Get (Request.Header r) "X-Hub-Signature-256" in
  let sha1Header := Header_Get (Request.Header r) "X-Hub-Signature" in
  ServeHTTP_ids strings_ToLower rand_Reader json_Unmarshal_map json_Unmarshal_job
    json_Unmarshal_run ConsumeTraces config r = Ret (WriteHeader StatusAccepted)
  <-> strings_HasPrefix (Header_Get (Request.Header r) "User-Agent") "GitHub-Hookshot" = true
      /\ Request.URL_Path r = Config.Path config
      /\ exists slurp td,
           Request.Body r = (slurp, None)
           /\ (secret = ""
               \/ ((sha256Header = ""
                    \/ validateSignatureSHA256 secret sha256Header slurp = Ret true)
                   /\ (sha1Header = ""
                       \/ validateSignatureSHA1 secret sha1Header slurp = Ret true)))
           /\ UnmarshalTraces_ids strings_ToLower rand_Reader json_Unmarshal_map
                json_Unmarshal_job json_Unmarshal_run slurp config = (td, None)
           /\ ConsumeTraces td = None.
Proof.
  intros secret sha256Header sha1Header.
  destruct (strings_HasPrefix (Header_Get (Request.Header r) "User-Agent") "GitHub-Hookshot")
    eqn:Hagent.
  2: { unfold ServeHTTP_ids, ServeHTTP. rewrite Hagent. cbn.
       split; [discriminate | intros [H _]; discriminate H]. }
  destruct (String.eqb_spec (Request.URL_Path r) (Config.Path config)) as [Hpath | Hpath].
  2: { unfold ServeHTTP_ids, ServeHTTP. rewrite Hagent.
       rewrite (proj2 (String.eqb_neq _ _) Hpath). cbn.
       split; [discriminate | intros (_ & H & _); contradiction]. }
  destruct (Request.Body r) as [slurp [err |]] eqn:Hbody.
  { unfold ServeHTTP_ids, ServeHTTP. rewrite Hagent, Hpath, String.eqb_refl, Hbody. cbn.
    split; [discriminate | intros (_ & _ & s & td & H & _); discriminate H]. }
  rewrite (ServeHTTP_guarded strings_ToLower rand_Reader json_Unmarshal_map
             json_Unmarshal_job json_Unmarshal_run ConsumeTraces config r slurp
             Hagent Hpath Hbody).
  fold secret.
  pose proof (signature_check_passes_iff config r slurp) as Hcheck.
  cbv zeta in Hcheck. fold secret sha256Header sha1Header in Hcheck.
  destruct (if negb (String.eqb secret "") then signatureMismatch config r slurp else Ret false)
    as [[|] | msg] eqn:Hresult; cbn.
  - split; [discriminate |].
    intros (_ & _ & s & td & Hs & Hauth & _). injection Hs as <-.
    apply Hcheck in Hauth. discriminate Hauth.
  - destruct (UnmarshalTraces_ids _ _ _ _ _ slurp config) as [td [err |]] eqn:Hunmarshal.
    + split; [discriminate |].
      intros (_ & _ & s & td' & Hs & _ & Hu & _). injection Hs as <-.
      rewrite Hunmarshal in Hu. discriminate Hu.
    + destruct (ConsumeTraces td) as [err |] eqn:Hconsume.
      * split; [discriminate |].
        intros (_ & _ & s & td' & Hs & _ & Hu & Hc). injection Hs as <-.
        rewrite Hunmarshal in Hu. injection Hu as <-. congruence.
      * split; [intros _ | reflexivity].
        split; [reflexivity |]. split; [exact Hpath |].
        exists slurp, td. repeat split; try assumption.
        apply Hcheck. reflexivity.
  - split; [discriminate |].
    intros (_ & _ & s & td & Hs & Hauth & _). injection Hs as <-.
    apply Hcheck in Hauth. discriminate Hauth.
Qed.

(** The conversion of a job or run event returns no error. *)
Lemma conversion_no_error (event : Event) (config : Config.t) :
  event <> OtherEvent ->
  snd (eventToTraces_ids strings_ToLower rand_Reader event config) = None.
Proof.
  intros Hevent. destruct event as [e | e |]; [| | contradiction].
  - destruct (String.eqb_spec (WorkflowJob.Status (WorkflowJobEvent.WorkflowJob e)) "completed")
      as [Hs | Hs].
    + destruct (completed_job_document strings_ToLower rand_Reader e config Hs)
        as (jobSpan & stepSpans & Hdoc & _).
      rewrite Hdoc. reflexivity.
    + rewrite (pending_job_document strings_ToLower rand_Reader e config Hs). reflexivity.
  - destruct (String.eqb_spec (WorkflowRun.Status (WorkflowRunEvent.WorkflowRun e)) "completed")
      as [Hs | Hs].
    + destruct (completed_run_document strings_ToLower rand_Reader e config Hs)
        as (rootSpan & Hdoc & _).
      rewrite Hdoc. reflexivity.
    + rewrite (pending_run_document strings_ToLower rand_Reader e config Hs). reflexivity.
Qed.

(** X18: [UnmarshalTraces] returns no error exactly when the payload decodes
    to a top-level object and either that has the key "workflow_job" and the
    payload decodes as a job event, or it lacks that key, has the key
    "workflow_run", and the payload decodes as a run event. The status of
    the job or run plays no part. *)
Theorem unmarshal_succeeds_iff (blob : list Z) (config : Config.t) :
  snd (UnmarshalTraces_ids strings_ToLower rand_Reader json_Unmarshal_map
         json_Unmarshal_job json_Unmarshal_run blob config) = None
  <-> exists event,
        json_Unmarshal_map blob = Decoded event
        /\ ((is_Some (event !! "workflow_job")
             /\ exists jobEvent, json_Unmarshal_job blob = Decoded jobEvent)
            \/ (event !! "workflow_job" = None
                /\ is_Some (event !! "workflow_run")
                /\ exists runEvent, json_Unmarshal_run blob = Decoded runEvent)).
Proof.
  unfold UnmarshalTraces_ids, UnmarshalTraces.
  destruct (json_Unmarshal_map blob) as [event | err].
  2: { cbn. split; [discriminate | intros (ev & H & _); discriminate H]. }
  destruct (event !! "workflow_job") as [job |] eqn:Hjob.
  - rewrite bool_decide_eq_true_2 by (eexists; reflexivity).
    destruct (json_Unmarshal_job blob) as [jobEvent | err] eqn:Hdecode.
    + assert (Hok := conversion_no_error (JobEvent jobEvent) config ltac:(discriminate)).
      unfold eventToTraces_ids in Hok.
      destruct (eventToTraces _ _ _ _ _ (JobEvent jobEvent) config) as [td [err |]].
      * discriminate Hok.
      * cbn. split; [intros _ | reflexivity].
        exists event. split; [reflexivity |]. left.
        split; [rewrite Hjob; eexists; reflexivity | eexists; reflexivity].
    + cbn. split; [discriminate |].
      intros (ev & Hev & [[_ [je Hje]] | [Hnone _]]).
      * discriminate Hje.
      * injection Hev as <-. rewrite Hjob in Hnone. discriminate Hnone.
  - rewrite bool_decide_eq_false_2 by (intros [x Hx]; discriminate Hx).
    destruct (event !! "workflow_run") as [run |] eqn:Hrun.
    + rewrite bool_decide_eq_true_2 by (eexists; reflexivity).
      destruct (json_Unmarshal_run blob) as [runEvent | err] eqn:Hdecode.
      * assert (Hok := conversion_no_error (RunEvent runEvent) config ltac:(discriminate)).
        unfold eventToTraces_ids in Hok.
        destruct (eventToTraces _ _ _ _ _ (RunEvent runEvent) config) as [td [err |]].
        -- discriminate Hok.
        -- cbn. split; [intros _ | reflexivity].
           exists event. split; [reflexivity |]. right.
           split; [exact Hjob |].
           split; [rewrite Hrun; eexists; reflexivity | eexists; reflexivity].
      * cbn. split; [discriminate |].
        intros (ev & Hev & [[[x Hx] _] | (_ & _ & [re Hre])]).
        -- injection Hev as <-. rewrite Hjob in Hx. discriminate Hx.
        -- discriminate Hre.
    + rewrite bool_decide_eq_false_2 by (intros [x Hx]; discriminate Hx).
      cbn. split; [discriminate |].
      intros (ev & Hev & [[[x Hx] _] | (_ & [x Hx] & _)]); injection Hev as <-.
      * rewrite Hjob in Hx. discriminate Hx.
      * rewrite Hrun in Hx. discriminate Hx.
Qed.
End Acceptance.

(** ** Classification of payloads without the job key *)

Section OtherPayloads.
Variable strings_ToLower : string -> string.
Variable generateTraceID : Z -> Z -> list Z * option error.
Variable generateParentSpanID : Z -> Z -> list Z * option error.
Variable generateJobSpanID : Z -> Z -> string -> list Z * option error.
Variable rand_Reader : nat -> list Z.
Variable json_Unmarshal_map : list Z -> decoded (gmap string (list Z)).
Variable json_Unmarshal_job : list Z -> decoded WorkflowJobEvent.t.
Variable json_Unmarshal_run : list Z -> decoded WorkflowRunEvent.t.

(** X19: a payload whose top-level object has the key "workflow_run" and not
    "workflow_job" is handled as a run event: the result is that of decoding
    and converting the run event, and the decoder of job events is not
    used. *)
Theorem run_key_alone (json_Unmarshal_job' : list Z -> decoded WorkflowJobEvent.t)
    (blob : list Z) (config : Config.t) (event : gmap string (list Z)) :
  let unmarshal decodeJob :=
    UnmarshalTraces strings_ToLower generateTraceID generateParentSpanID generateJobSpanID
      rand_Reader json_Unmarshal_map decodeJob json_Unmarshal_run blob config in
  json_Unmarshal_map blob = Decoded event ->
  event !! "workflow_job" = None ->
  is_Some (event !! "workflow_run") ->
  unmarshal json_Unmarshal_job
  = match json_Unmarshal_run blob with
    | DecodeError err => (Traces_zero, Some err)
    | Decoded runEvent =>
        match eventToTraces strings_ToLower generateTraceID generateParentSpanID
                generateJobSpanID rand_Reader (RunEvent runEvent) config with
        | (_, Some err) => (Traces_zero, Some err)
        | (traces, None) => (traces, None)
        end
    end
  /\ unmarshal json_Unmarshal_job = unmarshal json_Unmarshal_job'.
Proof.
  intros unmarshal Hmap Hjob Hrun. subst unmarshal. unfold UnmarshalTraces.
  rewrite Hmap, Hjob.
  rewrite bool_decide_eq_false_2 by (intros [x Hx]; discriminate Hx).
  rewrite (bool_decide_eq_true_2 _ Hrun). split; reflexivity.
Qed.

(** X20: a payload whose top-level object has neither key is refused with the
    error "unknown event type" and the zero document, without any decoding
    of an event. *)
Theorem neither_key_unknown
    (json_Unmarshal_job' : list Z -> decoded WorkflowJobEvent.t)
    (json_Unmarshal_run' : list Z -> decoded WorkflowRunEvent.t)
    (blob : list Z) (config : Config.t) (event : gmap string (list Z)) :
  json_Unmarshal_map blob = Decoded event ->
  event !! "workflow_job" = None ->
  event !! "workflow_run" = None ->
  UnmarshalTraces strings_ToLower generateTraceID generateParentSpanID generateJobSpanID
    rand_Reader json_Unmarshal_map json_Unmarshal_job' json_Unmarshal_run' blob config
  = (Traces_zero, Some (errorString "unknown event type")).
Proof.
  intros Hmap Hjob Hrun. unfold UnmarshalTraces. rewrite Hmap, Hjob, Hrun.
  rewrite !bool_decide_eq_false_2 by (intros [x Hx]; discriminate Hx).
  reflexivity.
Qed.
End OtherPayloads.

(** ** Resource attributes *)







Section Attributes.
Variable strings_ToLower : string -> string.


(** X22: without a custom service name, the service name is the prefix, the
    lower-cased normalised repository name and the suffix; the normalised
    name has the length of the repository name and, position by position,
    "-" where that has "/" or "_" and the same character elsewhere. *)
Theorem service_name_normalised (config : Config.t) (fullName : string) :
  Config.CustomServiceName config = "" ->
  exists normalised,
    generateServiceName strings_ToLower config fullName
    = (Config.ServiceNamePrefix config ++ strings_ToLower normalised
         ++ Config.ServiceNameSuffix config)%string
    /\ String.length normalised = String.length fullName
    /\ forall i,
         String.get i normalised
         = match String.get i fullName with
           | Some c => Some (if Ascii.eqb c "/" || Ascii.eqb c "_" then "-"%char else c)
           | None => None
           end.
Proof.
  intros Hcustom. unfold generateServiceName. rewrite Hcustom. cbn [String.eqb negb].
  eexists. split; [reflexivity |].
  split.
  - induction fullName as [| c s IH]; [reflexivity |]. cbn. rewrite IH. reflexivity.
  - induction fullName as [| c s IH]; intros i; [destruct i; reflexivity |].
    destruct i as [| i]; cbn [strings_ReplaceAll String.get].
    + destruct (Ascii.eqb_spec c "/") as [-> | E1]; [reflexivity |].
      destruct (Ascii.eqb_spec c "_") as [-> | E2]; reflexivity.
    + apply IH.
Qed.
End Attributes.

(** * The further properties at sample inputs *)

(** The two step spans of a job with a passing and a failing step. *)
Lemma step_spans_follow_steps_witness :
  let doc := fst (eventToTraces_ids lowerASCII countingReader (JobEvent twoStepJobEvent)
                    sampleConfig) in
  WorkflowJob.Status (WorkflowJobEvent.WorkflowJob twoStepJobEvent) = "completed"
  /\ exists jobSpan buildSpan testSpan,
       all_spans doc = [jobSpan; buildSpan; testSpan]
       /\ Span.Code buildSpan = StatusCodeOk
       /\ Span.Code testSpan = StatusCodeError
       /\ Span.Message testSpan = "failure"
       /\ Span.ParentSpanID testSpan = Span.SpanID jobSpan
       /\ Span.SpanID buildSpan = countingReader 0
       /\ Span.SpanID testSpan = countingReader 1.
Proof.
  cbv zeta. split; [reflexivity |].
  destruct (step_spans_follow_steps lowerASCII countingReader twoStepJobEvent sampleConfig
              eq_refl) as (jobSpan & stepSpans & Hdoc & Hall & Hids).
  cbn in Hall, Hids.
  inversion Hall as [| ? buildSpan ? rest1 Hbuild Hrest1]; subst.
  inversion Hrest1 as [| ? testSpan ? rest2 Htest Hrest2]; subst.
  inversion Hrest2; subst.
  destruct Hbuild as (_ & _ & _ & _ & _ & _ & Hcode1 & _).
  destruct Htest as (_ & Hparent2 & _ & _ & _ & _ & Hcode2 & Hmessage2).
  injection Hids as Hid1 Hid2.
  exists jobSpan, buildSpan, testSpan. repeat split; assumption.
Defined.

(** The job span of that job runs from 100 to 350. *)
Lemma job_span_covers_steps_witness :
  let doc := fst (eventToTraces_ids lowerASCII countingReader (JobEvent twoStepJobEvent)
                    sampleConfig) in
  WorkflowJob.Status (WorkflowJobEvent.WorkflowJob twoStepJobEvent) = "completed"
  /\ exists jobSpan stepSpans,
       all_spans doc = jobSpan :: stepSpans
       /\ Span.StartTimestamp jobSpan = 100
       /\ Span.EndTimestamp jobSpan = 350
       /\ Span.Name jobSpan = "build"
       /\ Span.Message jobSpan = "".
Proof.
  cbv zeta. split; [reflexivity |].
  destruct (job_span_covers_steps lowerASCII countingReader twoStepJobEvent sampleConfig
              _ _ eq_refl eq_refl)
    as (jobSpan & stepSpans & Hdoc & Hstart & Hend & Hname & _ & Hmessage).
  exists jobSpan, stepSpans. repeat split; assumption.
Defined.

(** The root span and the resource of the completed sample run. *)
Lemma run_root_span_witness :
  let doc := fst (eventToTraces_ids lowerASCII countingReader
                    (RunEvent (sampleRunEvent "completed")) sampleConfig) in
  WorkflowRun.Status (sampleRun "completed") = "completed"
  /\ exists rootSpan,
       all_spans doc = [rootSpan]
       /\ Span.SpanID rootSpan = hash_8_16 "123451s"
       /\ Span.ParentSpanID rootSpan = SpanID_zero
       /\ Span.Code rootSpan = StatusCodeOk
       /\ Span.Message rootSpan = "success".
Proof.
  cbv zeta. split; [reflexivity |].
  destruct (run_root_span lowerASCII countingReader (sampleRunEvent "completed") sampleConfig
              eq_refl)
    as (rootSpan & _ & Hdoc & _ & Hid & Hparent & _ & _ & _ & _ & Hcode & Hmessage).
  exists rootSpan. repeat split; assumption.
Defined.

Lemma run_resource_attributes_witness :
  WorkflowRun.Status (sampleRun "completed") = "completed"
  /\ map (map fst)
       (map Resource
          (ResourceSpansSlice
             (fst (eventToTraces_ids lowerASCII countingReader
                     (RunEvent (sampleRunEvent "completed")) sampleConfig))))
     = [["service.name"; "ci.system"; "ci.actor"; "ci.github.run_id";
         "ci.github.run_attempt"; "ci.github.workflow"; "ci.github.workflow_path";
         "scm.system"; "scm.git.branch"; "scm.git.sha"; "scm.git.repo"]].
Proof.
  split; [reflexivity |].
  rewrite (run_resource_attributes lowerASCII countingReader (sampleRunEvent "completed")
             sampleConfig eq_refl).
  reflexivity.
Defined.

(** The completed sample job and the completed sample run. *)
Lemma job_span_parent_is_run_root_witness :
  let je := sampleJobEvent 7 "completed" [stepOf "build" "completed" "success"] in
  let re := sampleRunEvent "completed" in
  WorkflowJob.Status (WorkflowJobEvent.WorkflowJob je) = "completed"
  /\ WorkflowRun.Status (WorkflowRunEvent.WorkflowRun re) = "completed"
  /\ exists jobSpan stepSpans rootSpan,
       all_spans (fst (eventToTraces_ids lowerASCII countingReader (JobEvent je) sampleConfig))
       = jobSpan :: stepSpans
       /\ all_spans (fst (eventToTraces_ids lowerASCII countingReader (RunEvent re)
                            sampleConfig))
          = [rootSpan]
       /\ Span.ParentSpanID jobSpan = Span.SpanID rootSpan.
Proof.
  cbv zeta. split; [reflexivity |]. split; [reflexivity |].
  destruct (job_span_parent_is_run_root lowerASCII countingReader
              (sampleJobEvent 7 "completed" [stepOf "build" "completed" "success"])
              (sampleRunEvent "completed") sampleConfig eq_refl eq_refl eq_refl eq_refl)
    as (jobSpan & stepSpans & rootSpan & Hjob & Hrun & Hlink & _).
  exists jobSpan, stepSpans, rootSpan. repeat split; assumption.
Defined.

(** The header "sha256=" followed by the expected signature verifies. *)
Lemma sha256_signature_accepted_iff_witness :
  let body := bytes_of_string "{}" in
  validateSignatureSHA256 "s3cret" ("sha256=" ++ expectedSHA256 "s3cret" body) body
  = Ret true.
Proof.
  cbv zeta.
  apply (proj2 (sha256_signature_accepted_iff "s3cret" _ (bytes_of_string "{}"))).
  exists "sha256="%string. split; reflexivity.
Defined.

(** A request without User-Agent header is refused, whatever else it holds. *)
Lemma guards_in_order_witness :
  ServeHTTP_ids lowerASCII countingReader bothKeys decodeSampleJob decodeSampleRun acceptAll
    sampleConfig (anonymousRequest (bytes_of_string "{}"))
  = Ret (http_Error "Forbidden" StatusForbidden).
Proof.
  apply (proj1 (guards_in_order lowerASCII countingReader bothKeys decodeSampleJob
                  decodeSampleRun acceptAll sampleConfig
                  (anonymousRequest (bytes_of_string "{}")))).
  vm_compute. reflexivity.
Defined.

(** Without secret, a request with the SHA-1 header "sha1" is accepted. *)
Lemma no_secret_ignores_signatures_witness :
  let r := sha1Request (bytes_of_string "{}") "sha1" in
  Config.Secret openConfig = ""
  /\ strings_HasPrefix (Header_Get (Request.Header r) "User-Agent") "GitHub-Hookshot" = true
  /\ Request.URL_Path r = Config.Path openConfig
  /\ ServeHTTP_ids lowerASCII countingReader bothKeys decodeSampleJob decodeSampleRun
       acceptAll openConfig r
     = Ret (WriteHeader StatusAccepted).
Proof.
  cbv zeta.
  assert (Hagent : strings_HasPrefix
                     (Header_Get (Request.Header (sha1Request (bytes_of_string "{}") "sha1"))
                        "User-Agent") "GitHub-Hookshot" = true) by (vm_compute; reflexivity).
  split; [reflexivity |]. split; [exact Hagent |]. split; [reflexivity |].
  rewrite (no_secret_ignores_signatures lowerASCII countingReader bothKeys decodeSampleJob
             decodeSampleRun acceptAll openConfig
             (sha1Request (bytes_of_string "{}") "sha1") (bytes_of_string "{}")
             eq_refl Hagent eq_refl eq_refl).
  vm_compute. reflexivity.
Defined.

(** With the secret "s3cret" configured, a request without signature headers
    is accepted. *)
Lemma missing_signatures_pass_witness :
  let r := plainRequest (bytes_of_string "{}") in
  Config.Secret sampleConfig = "s3cret"
  /\ Header_Get (Request.Header r) "X-Hub-Signature-256" = ""
  /\ Header_Get (Request.Header r) "X-Hub-Signature" = ""
  /\ ServeHTTP_ids lowerASCII countingReader bothKeys decodeSampleJob decodeSampleRun
       acceptAll sampleConfig r
     = Ret (WriteHeader StatusAccepted).
Proof.
  cbv zeta.
  assert (H256 : Header_Get (Request.Header (plainRequest (bytes_of_string "{}")))
                   "X-Hub-Signature-256" = "") by (vm_compute; reflexivity).
  assert (H1 : Header_Get (Request.Header (plainRequest (bytes_of_string "{}")))
                 "X-Hub-Signature" = "") by (vm_compute; reflexivity).
  assert (Hagent : strings_HasPrefix
                     (Header_Get (Request.Header (plainRequest (bytes_of_string "{}")))
                        "User-Agent") "GitHub-Hookshot" = true) by (vm_compute; reflexivity).
  split; [reflexivity |]. split; [exact H256 |]. split; [exact H1 |].
  rewrite (missing_signatures_pass lowerASCII countingReader bothKeys decodeSampleJob
             decodeSampleRun acceptAll sampleConfig
             (plainRequest (bytes_of_string "{}")) (bytes_of_string "{}")
             H256 H1 Hagent eq_refl eq_refl).
  vm_compute. reflexivity.
Defined.

(** A payload with the run key alone, decoded with two decoders of job
    events. *)
Lemma run_key_alone_witness :
  let blob := bytes_of_string "{}" in
  let unmarshal decodeJob :=
    UnmarshalTraces lowerASCII ids.generateTraceID ids.generateParentSpanID
      ids.generateJobSpanID countingReader runKeyOnly decodeJob decodeSampleRun blob
      sampleConfig in
  unmarshal decodeSampleJob
  = unmarshal (fun _ => DecodeError (json_Error "unexpected end of JSON input"))
  /\ SpanCount (fst (unmarshal decodeSampleJob)) = 1%nat.
Proof.
  cbv zeta.
  assert (Hjob : (<["workflow_run" := bytes_of_string "{}"]> ∅ : gmap string (list Z))
                 !! "workflow_job" = None) by (vm_compute; reflexivity).
  assert (Hrun : is_Some ((<["workflow_run" := bytes_of_string "{}"]> ∅
                           : gmap string (list Z)) !! "workflow_run"))
    by (eexists; vm_compute; reflexivity).
  destruct (run_key_alone lowerASCII ids.generateTraceID ids.generateParentSpanID
              ids.generateJobSpanID countingReader runKeyOnly decodeSampleJob decodeSampleRun
              (fun _ => DecodeError (json_Error "unexpected end of JSON input"))
              (bytes_of_string "{}") sampleConfig _ eq_refl Hjob Hrun) as [_ Hsame].
  split; [exact Hsame | vm_compute; reflexivity].
Defined.

(** A payload with the key "ping" alone. *)
Lemma neither_key_unknown_witness :
  UnmarshalTraces lowerASCII ids.generateTraceID ids.generateParentSpanID
    ids.generateJobSpanID countingReader otherKeyOnly decodeSampleJob decodeSampleRun
    (bytes_of_string "{}") sampleConfig
  = (Traces_zero, Some (errorString "unknown event type")).
Proof.
  apply (neither_key_unknown lowerASCII ids.generateTraceID ids.generateParentSpanID
           ids.generateJobSpanID countingReader otherKeyOnly decodeSampleJob decodeSampleRun
           (bytes_of_string "{}") sampleConfig (<["ping" := bytes_of_string "{}"]> ∅));
    [reflexivity | vm_compute; reflexivity | vm_compute; reflexivity].
Defined.


(** The repository "Org/Repo_Name" under the prefix "ci-". *)
Lemma service_name_normalised_witness :
  Config.CustomServiceName sampleConfig = ""
  /\ exists normalised,
       generateServiceName lowerASCII sampleConfig "Org/Repo_Name"
       = ("ci-" ++ lowerASCII normalised ++ "")%string
       /\ String.length normalised = 13%nat
       /\ String.get 3 normalised = Some "-"%char
       /\ String.get 8 normalised = Some "-"%char.
Proof.
  split; [reflexivity |].
  destruct (service_name_normalised lowerASCII sampleConfig "Org/Repo_Name" eq_refl)
    as (normalised & Hname & Hlen & Hget).
  exists normalised. split; [exact Hname |]. split; [exact Hlen |].
  split; [rewrite (Hget 3%nat) | rewrite (Hget 8%nat)]; reflexivity.
Defined.
